(** * NoTODO tag components: a shallow embedding and its properties

    The development follows the source files:
    - [src/components/tags-input.tsx]   (the tag collection editor),
    - [src/components/tags-display.tsx] (the tag collection renderer),
    - [src/components/task-detail-modal.tsx] (the edit form of a task),
    - the quick-add input and the home page (the task list and its
      handlers).

    JavaScript strings are modelled by [string]; every [ascii] stands for one
    code unit in the range U+0000..U+00FF, on which [trim] and [toLowerCase]
    are written out exactly as ECMAScript defines them.  JavaScript numbers
    that count or cap things ([maxTags], [maxDisplay], [length]) are modelled
    by [Z]. *)

From Stdlib Require Import List String Ascii ZArith Bool Lia.
From Stdlib Require Import DecimalString DecimalZ DecimalPos.
Import ListNotations.
Local Open Scope string_scope.
Local Open Scope list_scope.
Local Open Scope Z_scope.

(* ===================================================================== *)
(** ** String primitives used by the components *)
(* ===================================================================== *)

Module Str.

(** Code units that [String.prototype.trim] strips (WhiteSpace and
    LineTerminator) among U+0000..U+00FF: TAB, LF, VT, FF, CR, SP, NBSP. *)
Definition isWhiteSpace (c : ascii) : bool :=
  let n := N_of_ascii c in
  ((9 <=? n) && (n <=? 13) || (n =? 32) || (n =? 160))%N.

(** Lower-casing of one code unit: A..Z and the Latin-1 capitals
    U+00C0..U+00DE (without the multiplication sign U+00D7) move up by 32. *)
Definition lowerUnit (c : ascii) : ascii :=
  let n := N_of_ascii c in
  if ((65 <=? n) && (n <=? 90)
      || (192 <=? n) && (n <=? 222) && negb (n =? 215))%N
  then ascii_of_N (n + 32) else c.

Fixpoint toLowerCase (s : string) : string :=
  match s with
  | EmptyString => EmptyString
  | String c r => String (lowerUnit c) (toLowerCase r)
  end.

Fixpoint trimStart (s : string) : string :=
  match s with
  | EmptyString => EmptyString
  | String c r => if isWhiteSpace c then trimStart r else s
  end.

Definition isEmpty (s : string) : bool :=
  match s with EmptyString => true | String _ _ => false end.

Fixpoint trimEnd (s : string) : string :=
  match s with
  | EmptyString => EmptyString
  | String c r =>
      let r' := trimEnd r in
      if isWhiteSpace c && isEmpty r' then EmptyString else String c r'
  end.

Definition trim (s : string) : string := trimEnd (trimStart s).

(** Shape of a string after [trimStart]: empty, or starting with a code unit
    that is not white space. *)
Definition headKept (s : string) : Prop :=
  match s with
  | EmptyString => True
  | String c _ => isWhiteSpace c = false
  end.

(** [Array.prototype.includes] on an array of strings. *)
Definition includes (l : list string) (x : string) : bool :=
  existsb (fun y => String.eqb y x) l.

End Str.

(* ===================================================================== *)
(** ** The editor: [TagsInput] *)
(* ===================================================================== *)

Module Editor.

(** The props that steer the handlers ([placeholder] and [disabled] only
    reach the markup). *)
Record Config := mkConfig {
  maxTags : Z;
  allowDuplicates : bool
}.

(** Defaults of the destructured props: [maxTags = 10],
    [allowDuplicates = false]. *)
Definition defaultConfig : Config :=
  {| maxTags := 10; allowDuplicates := false |}.

(** What a handler does to the outside: the payload of [onTagsChange] when
    it is called, and the value of [tagInput] afterwards. *)
Record Outcome := mkOutcome {
  emitted : option (list string);
  nextInput : string
}.

Inductive Key := Enter | Backspace | OtherKey.

(** [tagInput.trim().toLowerCase()] *)
Definition normalize (tagInput : string) : string :=
  Str.toLowerCase (Str.trim tagInput).

Definition handleAddTag (cfg : Config) (tags : list string)
                        (tagInput : string) : Outcome :=
  let trimmedTag := normalize tagInput in
  if Str.isEmpty trimmedTag then
    {| emitted := None; nextInput := tagInput |}
  else if negb (allowDuplicates cfg) && Str.includes tags trimmedTag then
    {| emitted := None; nextInput := "" |}
  else if Z.of_nat (List.length tags) >=? maxTags cfg then
    {| emitted := None; nextInput := tagInput |}
  else
    {| emitted := Some (tags ++ [trimmedTag]); nextInput := "" |}.

(** The payload [handleRemoveTag] passes to [onTagsChange]:
    [tags.filter((tag) => tag !== tagToRemove)]. *)
Definition handleRemoveTag (tags : list string)
                           (tagToRemove : string) : list string :=
  filter (fun tag => negb (String.eqb tag tagToRemove)) tags.

(** [tags[tags.length - 1]]; the handler reads it only under
    [tags.length > 0], so the default is never returned. *)
Definition lastTag (tags : list string) : string :=
  nth (List.length tags - 1)%nat tags "".

Definition handleTagKeyDown (cfg : Config) (tags : list string)
                            (tagInput : string) (key : Key) : Outcome :=
  match key with
  | Enter => handleAddTag cfg tags tagInput
  | Backspace =>
      if Str.isEmpty tagInput && (0 <? Z.of_nat (List.length tags)) then
        {| emitted := Some (handleRemoveTag tags (lastTag tags));
           nextInput := tagInput |}
      else {| emitted := None; nextInput := tagInput |}
  | OtherKey => {| emitted := None; nextInput := tagInput |}
  end.

(** The owner of the collection passes its setter as [onTagsChange]
    ([onTagsChange={setTags}] at every call site): the collection after a
    handler ran is the payload when there is one, the old one otherwise. *)
Definition commit (current : list string) (o : Outcome) : list string :=
  match emitted o with
  | Some next => next
  | None => current
  end.

(** The three editor operations, read off the handlers. *)
Definition add (currentTags : list string) (rawInput : string)
               (cfg : Config) : list string :=
  commit currentTags (handleAddTag cfg currentTags rawInput).

Definition remove (currentTags : list string) (tag : string) : list string :=
  handleRemoveTag currentTags tag.

Definition removeLast (cfg : Config) (currentTags : list string)
  : list string :=
  commit currentTags (handleTagKeyDown cfg currentTags "" Backspace).

(** A Tag is a string that is its own normal form. *)
Definition isTag (s : string) : Prop := normalize s = s.

(** The Tag Collection invariant for a configuration. *)
Definition TagCollection (cfg : Config) (c : list string) : Prop :=
  Forall isTag c
  /\ Z.of_nat (List.length c) <= maxTags cfg
  /\ (allowDuplicates cfg = false -> NoDup (map normalize c)).

End Editor.

(* ===================================================================== *)
(** ** The renderer: [TagsDisplay] *)
(* ===================================================================== *)

Module Renderer.

Inductive Variant := Default | Compact.

(** [tags.slice(0, end)]: a negative [end] counts from the back, and the
    result never reaches past the array. *)
Definition slice0 (tags : list string) (end_ : Z) : list string :=
  let len := Z.of_nat (List.length tags) in
  let final := if end_ <? 0 then Z.max (len + end_) 0 else Z.min end_ len in
  firstn (Z.to_nat final) tags.

(** [maxDisplay ? tags.slice(0, maxDisplay) : tags]; an absent cap and the
    number 0 are both falsy. *)
Definition displayTags (tags : list string) (maxDisplay : option Z)
  : list string :=
  match maxDisplay with
  | Some n => if n =? 0 then tags else slice0 tags n
  | None => tags
  end.

(** [maxDisplay ? Math.max(0, tags.length - maxDisplay) : 0] *)
Definition remainingCount (tags : list string) (maxDisplay : option Z) : Z :=
  match maxDisplay with
  | Some n => if n =? 0 then 0 else Z.max 0 (Z.of_nat (List.length tags) - n)
  | None => 0
  end.

(** What the component returns when it renders something: the container of
    the chosen variant, one button per displayed tag (enabled when a click
    handler was supplied), and the indicator with the number of hidden tags
    when that number is positive. *)
Record Rendered := mkRendered {
  variant : Variant;
  buttons : list string;
  interactive : bool;
  more : option Z
}.

(** [None] is the source's [null]. *)
Definition TagsDisplay (tags : list string) (maxDisplay : option Z)
                       (onTagClick : bool) (v : Variant) : option Rendered :=
  if (List.length tags =? 0)%nat then None
  else
    let shown := displayTags tags maxDisplay in
    let hidden := remainingCount tags maxDisplay in
    Some {| variant := v;
            buttons := shown;
            interactive := onTagClick;
            more := if 0 <? hidden then Some hidden else None |}.

(** The projection as the specification words it, for comparison with
    [displayTags] and [remainingCount]. *)
Definition spec_visible (tags : list string) (maxDisplay : option Z)
  : list string :=
  match maxDisplay with
  | None => tags
  | Some n => firstn (Z.to_nat (Z.min n (Z.of_nat (List.length tags)))) tags
  end.

Definition spec_overflow (tags : list string) (maxDisplay : option Z) : Z :=
  match maxDisplay with
  | None => 0
  | Some n => Z.max 0 (Z.of_nat (List.length tags) - n)
  end.

End Renderer.

(* ===================================================================== *)
(** ** The task list of the home page *)
(* ===================================================================== *)

Module Store.

Inductive TaskPriority := low | medium | high.

(** [TaskItem extends Task]; the two [Date] fields are kept as epoch
    milliseconds. *)
Record TaskItem := mkTask {
  id : string;
  title : string;
  description : option string;
  priority : TaskPriority;
  tags : list string;
  completed : bool;
  createdAt : Z;
  dueDate : option Z;
  text : option string
}.

(** [{ ...task, completed: !task.completed }] *)
Definition flipCompleted (task : TaskItem) : TaskItem :=
  {| id := id task;
     title := title task;
     description := description task;
     priority := priority task;
     tags := tags task;
     completed := negb (completed task);
     createdAt := createdAt task;
     dueDate := dueDate task;
     text := text task |}.

(** The updater [handleToggleTask] hands to [setTasks]. *)
Definition handleToggleTask (id0 : string) (prevTasks : list TaskItem)
  : list TaskItem :=
  map (fun task => if String.eqb (id task) id0 then flipCompleted task
                   else task) prevTasks.

End Store.

(* ===================================================================== *)
(** ** The editor on screen and in use *)
(* ===================================================================== *)

Module EditorView.

(** The parts of the markup of [TagsInput] that depend on its props and
    state: one pill per tag, the counter [{tags.length} / {maxTags} tags],
    the input row (rendered under [tags.length < maxTags]) with its Add
    button ([disabled={!tagInput.trim() || disabled}]), and the message
    rendered under [tags.length >= maxTags]. *)
Record View := mkView {
  pills : list string;
  counter : Z * Z;
  inputShown : bool;
  addDisabled : bool;
  limitMessage : bool
}.

Definition render (cfg : Editor.Config) (disabled : bool)
                  (tags : list string) (tagInput : string) : View :=
  {| pills := tags;
     counter := (Z.of_nat (List.length tags), Editor.maxTags cfg);
     inputShown := Z.of_nat (List.length tags) <? Editor.maxTags cfg;
     addDisabled := Str.isEmpty (Str.trim tagInput) || disabled;
     limitMessage := Z.of_nat (List.length tags) >=? Editor.maxTags cfg |}.

(** What the user can make the component do: type into the input
    ([onChange]), press a key in it ([onKeyDown]), click Add, click the
    cross of a pill. *)
Inductive Action :=
| SetInput (value : string)
| KeyDown (key : Editor.Key)
| ClickAdd
| ClickRemove (tag : string).

(** The collection held by the owner and the component's [tagInput]. *)
Record Session := mkSession {
  tags : list string;
  tagInput : string
}.

Definition settle (s : Session) (o : Editor.Outcome) : Session :=
  {| tags := Editor.commit (tags s) o; tagInput := Editor.nextInput o |}.

Definition step (cfg : Editor.Config) (s : Session) (a : Action) : Session :=
  match a with
  | SetInput value => {| tags := tags s; tagInput := value |}
  | KeyDown key =>
      settle s (Editor.handleTagKeyDown cfg (tags s) (tagInput s) key)
  | ClickAdd => settle s (Editor.handleAddTag cfg (tags s) (tagInput s))
  | ClickRemove tag =>
      {| tags := Editor.handleRemoveTag (tags s) tag; tagInput := tagInput s |}
  end.

Definition run (cfg : Editor.Config) (s : Session) (actions : list Action)
  : Session :=
  fold_left (step cfg) actions s.

End EditorView.

(* ===================================================================== *)
(** ** [QuickAddTask] *)
(* ===================================================================== *)

Module QuickAdd.

(** What [handleSubmit] does: the text handed to [onSubmit] when it is
    called, and the component's [input] and [isLoading] afterwards. *)
Record Submission := mkSubmission {
  submitted : option string;
  inputAfter : string;
  loadingAfter : bool
}.

(** [onSubmitOk] tells whether the awaited [onSubmit] returned or threw:
    the input is cleared only after it returned, and [finally] resets
    [isLoading] either way. *)
Definition handleSubmit (disabled : bool) (onSubmitOk : bool)
                        (input : string) (isLoading : bool) : Submission :=
  if Str.isEmpty (Str.trim input) || isLoading || disabled then
    {| submitted := None; inputAfter := input; loadingAfter := isLoading |}
  else
    {| submitted := Some input;
       inputAfter := if onSubmitOk then "" else input;
       loadingAfter := false |}.

End QuickAdd.

(* ===================================================================== *)
(** ** [TaskDetailModal] *)
(* ===================================================================== *)

Module Modal.

(** The four edited fields held in the modal's state. *)
Record Form := mkForm {
  title : string;
  description : string;
  priority : Store.TaskPriority;
  tags : list string
}.

(** [task.description || ''] *)
Definition descriptionOrEmpty (d : option string) : string :=
  match d with
  | Some s => s
  | None => ""
  end.

(** The initial state and the effect that runs when the modal opens or the
    task changes. *)
Definition resetForm (task : Store.TaskItem) : Form :=
  {| title := Store.title task;
     description := descriptionOrEmpty (Store.description task);
     priority := Store.priority task;
     tags := Store.tags task |}.

(** [description.trim() || undefined] *)
Definition trimmedOrUndefined (s : string) : option string :=
  if Str.isEmpty (Str.trim s) then None else Some (Str.trim s).

(** The task [handleSave] passes to [onSave]; [None] when the title is
    blank (an alert is shown and nothing is saved). *)
Definition handleSave (task : Store.TaskItem) (f : Form)
  : option Store.TaskItem :=
  if Str.isEmpty (Str.trim (title f)) then None
  else Some {| Store.id := Store.id task;
               Store.title := Str.trim (title f);
               Store.description := trimmedOrUndefined (description f);
               Store.priority := priority f;
               Store.tags := tags f;
               Store.completed := Store.completed task;
               Store.createdAt := Store.createdAt task;
               Store.dueDate := Store.dueDate task;
               Store.text := Store.text task |}.

(** What [handleDelete] does: the id it passes to [onDelete] (none when the
    user does not confirm or no [onDelete] was supplied) and whether it goes
    on to call [onClose]. *)
Record Deletion := mkDeletion {
  deleted : option string;
  closed : bool
}.

Definition handleDelete (confirmed : bool) (hasOnDelete : bool)
                        (task : Store.TaskItem) : Deletion :=
  if negb confirmed then {| deleted := None; closed := false |}
  else {| deleted := if hasOnDelete then Some (Store.id task) else None;
          closed := true |}.

End Modal.

(* ===================================================================== *)
(** ** [HomePage] *)
(* ===================================================================== *)

Module HomePage.

(** [Date.now().toString()] for a clock reading in milliseconds. *)
Definition timestampId (now : Z) : string :=
  NilZero.string_of_int (Z.to_int now).

(** The updater of [handleAddTask]; [now] is the reading of [Date.now()] and
    [created] that of [new Date()]. *)
Definition handleAddTask (now created : Z) (taskInput : string)
                         (prevTasks : list Store.TaskItem)
  : list Store.TaskItem :=
  {| Store.id := timestampId now;
     Store.title := taskInput;
     Store.description := None;
     Store.priority := Store.medium;
     Store.tags := [];
     Store.completed := false;
     Store.createdAt := created;
     Store.dueDate := None;
     Store.text := Some taskInput |} :: prevTasks.

Definition handleDeleteTask (id0 : string) (prevTasks : list Store.TaskItem)
  : list Store.TaskItem :=
  filter (fun task => negb (String.eqb (Store.id task) id0)) prevTasks.

(** [{ ...updatedTask, text: updatedTask.title }] *)
Definition withTitleAsText (updatedTask : Store.TaskItem) : Store.TaskItem :=
  {| Store.id := Store.id updatedTask;
     Store.title := Store.title updatedTask;
     Store.description := Store.description updatedTask;
     Store.priority := Store.priority updatedTask;
     Store.tags := Store.tags updatedTask;
     Store.completed := Store.completed updatedTask;
     Store.createdAt := Store.createdAt updatedTask;
     Store.dueDate := Store.dueDate updatedTask;
     Store.text := Some (Store.title updatedTask) |}.

Definition handleSaveTask (updatedTask : Store.TaskItem)
                          (prevTasks : list Store.TaskItem)
  : list Store.TaskItem :=
  map (fun task =>
         if String.eqb (Store.id task) (Store.id updatedTask)
         then withTitleAsText updatedTask else task) prevTasks.

(** [tasks.filter((t) => t.completed).length] *)
Definition completedCount (tasks : list Store.TaskItem) : nat :=
  List.length (filter Store.completed tasks).

(** The three pieces of state of the page. *)
Record State := mkState {
  tasks : list Store.TaskItem;
  selectedTask : option Store.TaskItem;
  isModalOpen : bool
}.

Definition initial : State :=
  {| tasks := []; selectedTask := None; isModalOpen := false |}.

Definition handleOpenTaskDetails (task : Store.TaskItem) (s : State) : State :=
  {| tasks := tasks s; selectedTask := Some task; isModalOpen := true |}.

Definition handleCloseModal (s : State) : State :=
  {| tasks := tasks s; selectedTask := None; isModalOpen := false |}.

(** The tag editor inside the modal is used with [maxTags={10}] and the
    default [allowDuplicates]. *)
Definition modalTagConfig : Editor.Config := Editor.mkConfig 10 false.

(** What the user can do on the page.  The modal's form is given by the
    title, description and priority typed in and by the actions performed on
    its tag editor, which starts from the tags of the selected task. *)
Inductive Event :=
| Submit (input : string) (now created : Z)
| Toggle (id0 : string)
| Delete (id0 : string)
| Open (index : nat)
| Close
| Save (title description : string) (priority : Store.TaskPriority)
       (tagActions : list EditorView.Action)
| DeleteInModal (confirmed : bool).

(** Each handler's state update is taken as one step; the simulated delays
    before the updates are left out.  The list rows exist only for tasks of
    the list, and the modal only while a task is selected and the modal is
    open. *)
Definition step (s : State) (e : Event) : State :=
  match e with
  | Submit input now created =>
      match QuickAdd.submitted (QuickAdd.handleSubmit false true input false)
      with
      | Some taskInput =>
          {| tasks := handleAddTask now created taskInput (tasks s);
             selectedTask := selectedTask s;
             isModalOpen := isModalOpen s |}
      | None => s
      end
  | Toggle id0 =>
      {| tasks := Store.handleToggleTask id0 (tasks s);
         selectedTask := selectedTask s;
         isModalOpen := isModalOpen s |}
  | Delete id0 =>
      {| tasks := handleDeleteTask id0 (tasks s);
         selectedTask := selectedTask s;
         isModalOpen := isModalOpen s |}
  | Open index =>
      match nth_error (tasks s) index with
      | Some task => handleOpenTaskDetails task s
      | None => s
      end
  | Close => handleCloseModal s
  | Save title description priority tagActions =>
      match selectedTask s with
      | Some task =>
          if isModalOpen s then
            let edited :=
              EditorView.tags
                (EditorView.run modalTagConfig
                   (EditorView.mkSession (Store.tags task) "") tagActions) in
            match Modal.handleSave task
                    (Modal.mkForm title description priority edited) with
            | Some updatedTask =>
                handleCloseModal
                  {| tasks := handleSaveTask updatedTask (tasks s);
                     selectedTask := selectedTask s;
                     isModalOpen := isModalOpen s |}
            | None => s
            end
          else s
      | None => s
      end
  | DeleteInModal confirmed =>
      match selectedTask s with
      | Some task =>
          if isModalOpen s then
            let d := Modal.handleDelete confirmed true task in
            let s' :=
              match Modal.deleted d with
              | Some taskId =>
                  {| tasks := handleDeleteTask taskId (tasks s);
                     selectedTask := selectedTask s;
                     isModalOpen := isModalOpen s |}
              | None => s
              end in
            if Modal.closed d then handleCloseModal s' else s'
          else s
      | None => s
      end
  end.

Definition run (s : State) (events : list Event) : State :=
  fold_left step events s.

(** What holds of every task the page ever shows: a title that is not
    blank, the legacy [text] equal to the title, and tags that form a Tag
    Collection of the modal's editor without an empty entry. *)
Definition wellFormed (task : Store.TaskItem) : Prop :=
  Str.trim (Store.title task) <> ""
  /\ Store.text task = Some (Store.title task)
  /\ Editor.TagCollection modalTagConfig (Store.tags task)
  /\ ~ In "" (Store.tags task).

Definition allWellFormed (s : State) : Prop :=
  Forall wellFormed (tasks s)
  /\ (forall task, selectedTask s = Some task -> wellFormed task).

(** The modal flag and the selected task go together. *)
Definition modalConsistent (s : State) : Prop :=
  isModalOpen s = true <-> selectedTask s <> None.

End HomePage.

(* ---------------------------------------------------------------------- *)
(** *** Examples from the source's documentation *)

Example add_normalizes :
  Editor.add [] "  Work  " Editor.defaultConfig = ["work"].
Proof. reflexivity. Qed.

Example add_limit :
  Editor.add ["a"; "b"; "c"] "d" (Editor.mkConfig 3 false) = ["a"; "b"; "c"].
Proof. reflexivity. Qed.

Example add_order :
  Editor.add ["a"; "b"] "c" (Editor.mkConfig 10 false) = ["a"; "b"; "c"].
Proof. reflexivity. Qed.

Example add_duplicates_allowed :
  Editor.add ["x"] "x" (Editor.mkConfig 10 true) = ["x"; "x"].
Proof. reflexivity. Qed.

(** The duplicate test compares the normal form of the input with the
    entries as they are stored: an entry that is not itself in normal form is
    not matched by it. *)
Example add_compares_stored_entries :
  Editor.add ["Work"] "work" Editor.defaultConfig = ["Work"; "work"].
Proof. reflexivity. Qed.

Example removeLast_empty :
  Editor.removeLast Editor.defaultConfig [] = [].
Proof. reflexivity. Qed.

Example normalize_latin1 :
  Editor.normalize (String (ascii_of_N 160) (String (ascii_of_N 9) "To Do "))
  = "to do"
  /\ Str.lowerUnit (ascii_of_N 201) = ascii_of_N 233
  /\ Str.lowerUnit (ascii_of_N 215) = ascii_of_N 215.
Proof. repeat split. Qed.

Example project_overflow :
  Renderer.displayTags ["a"; "b"; "c"; "d"] (Some 2) = ["a"; "b"]
  /\ Renderer.remainingCount ["a"; "b"; "c"; "d"] (Some 2) = 2.
Proof. split; reflexivity. Qed.

Example project_no_cap :
  Renderer.displayTags ["a"; "b"] None = ["a"; "b"]
  /\ Renderer.remainingCount ["a"; "b"] None = 0.
Proof. split; reflexivity. Qed.

Example project_negative_cap :
  Renderer.displayTags ["a"; "b"; "c"] (Some (-1)) = ["a"; "b"]
  /\ Renderer.remainingCount ["a"; "b"; "c"] (Some (-1)) = 4.
Proof. split; reflexivity. Qed.

(* ===================================================================== *)
(** ** Facts about the string primitives *)
(* ===================================================================== *)

Section StringFacts.

Import Str.

Local Ltac each_unit c :=
  destruct c as [[] [] [] [] [] [] [] []]; vm_compute; reflexivity.

Lemma lowerUnit_idem (c : ascii) : lowerUnit (lowerUnit c) = lowerUnit c.
Proof. each_unit c. Qed.

Lemma isWhiteSpace_lowerUnit (c : ascii) :
  isWhiteSpace (lowerUnit c) = isWhiteSpace c.
Proof. each_unit c. Qed.

Lemma toLowerCase_idem (s : string) :
  toLowerCase (toLowerCase s) = toLowerCase s.
Proof.
  induction s as [|c r IH]; simpl; [reflexivity|].
  now rewrite lowerUnit_idem, IH.
Qed.

Lemma isEmpty_toLowerCase (s : string) :
  isEmpty (toLowerCase s) = isEmpty s.
Proof. destruct s; reflexivity. Qed.

Lemma isEmpty_true (s : string) : isEmpty s = true <-> s = EmptyString.
Proof. destruct s; simpl; split; congruence. Qed.

Lemma trimStart_toLowerCase (s : string) :
  trimStart (toLowerCase s) = toLowerCase (trimStart s).
Proof.
  induction s as [|c r IH]; simpl; [reflexivity|].
  rewrite isWhiteSpace_lowerUnit.
  destruct (isWhiteSpace c); [exact IH | reflexivity].
Qed.

Lemma trimEnd_toLowerCase (s : string) :
  trimEnd (toLowerCase s) = toLowerCase (trimEnd s).
Proof.
  induction s as [|c r IH]; simpl; [reflexivity|].
  rewrite isWhiteSpace_lowerUnit, IH, isEmpty_toLowerCase.
  destruct (isWhiteSpace c && isEmpty (trimEnd r)); reflexivity.
Qed.

Lemma trim_toLowerCase (s : string) :
  trim (toLowerCase s) = toLowerCase (trim s).
Proof. unfold trim. now rewrite trimStart_toLowerCase, trimEnd_toLowerCase. Qed.

Lemma trimStart_headKept (s : string) : headKept (trimStart s).
Proof.
  induction s as [|c r IH]; simpl; [exact I|].
  destruct (isWhiteSpace c) eqn:E; [exact IH | exact E].
Qed.

Lemma trimStart_fixed (s : string) : headKept s -> trimStart s = s.
Proof. destruct s as [|c r]; simpl; [reflexivity|]. now intros ->. Qed.

Lemma trimEnd_headKept (s : string) : headKept s -> headKept (trimEnd s).
Proof.
  destruct s as [|c r]; simpl; [exact id|].
  intros E. now rewrite E.
Qed.

Lemma trimEnd_idem (s : string) : trimEnd (trimEnd s) = trimEnd s.
Proof.
  induction s as [|c r IH]; simpl; [reflexivity|].
  destruct (isWhiteSpace c) eqn:Ec; simpl.
  - destruct (isEmpty (trimEnd r)) eqn:Er; simpl; [reflexivity|].
    now rewrite Ec, IH, Er.
  - now rewrite Ec, IH.
Qed.

Lemma trim_idem (s : string) : trim (trim s) = trim s.
Proof.
  unfold trim.
  rewrite (trimStart_fixed (trimEnd (trimStart s))).
  - apply trimEnd_idem.
  - apply trimEnd_headKept, trimStart_headKept.
Qed.

Lemma normalize_idem (s : string) :
  Editor.normalize (Editor.normalize s) = Editor.normalize s.
Proof.
  unfold Editor.normalize.
  now rewrite trim_toLowerCase, trim_idem, toLowerCase_idem.
Qed.

Lemma includes_In (l : list string) (x : string) :
  includes l x = true <-> In x l.
Proof.
  unfold includes. rewrite existsb_exists. split.
  - intros (y & Hy & E). apply String.eqb_eq in E. now subst.
  - intros H. exists x. split; [exact H | apply String.eqb_refl].
Qed.

Lemma includes_false (l : list string) (x : string) :
  includes l x = false <-> ~ In x l.
Proof.
  rewrite <- includes_In. destruct (includes l x); split; congruence.
Qed.

End StringFacts.

(* ===================================================================== *)
(** ** The editor *)
(* ===================================================================== *)

Section EditorFacts.

Import Editor.

Variable cfg : Config.

(** The four outcomes of [add], one per branch of [handleAddTag]. *)
Lemma add_empty (c : list string) (raw : string) :
  normalize raw = "" -> add c raw cfg = c.
Proof.
  intros E. unfold add, handleAddTag. now rewrite E.
Qed.

Lemma add_duplicate (c : list string) (raw : string) :
  allowDuplicates cfg = false -> In (normalize raw) c -> add c raw cfg = c.
Proof.
  intros D H. unfold add, handleAddTag.
  destruct (Str.isEmpty (normalize raw)); [reflexivity|].
  apply includes_In in H. now rewrite D, H.
Qed.

Lemma add_full (c : list string) (raw : string) :
  maxTags cfg <= Z.of_nat (List.length c) -> add c raw cfg = c.
Proof.
  intros L. unfold add, handleAddTag.
  destruct (Str.isEmpty (normalize raw)); [reflexivity|].
  destruct (negb (allowDuplicates cfg) && Str.includes c (normalize raw));
    [reflexivity|].
  destruct (Z.geb_spec (Z.of_nat (List.length c)) (maxTags cfg));
    [reflexivity | lia].
Qed.

Lemma add_appends (c : list string) (raw : string) :
  normalize raw <> "" ->
  allowDuplicates cfg = true \/ ~ In (normalize raw) c ->
  Z.of_nat (List.length c) < maxTags cfg ->
  add c raw cfg = c ++ [normalize raw].
Proof.
  intros E D L. unfold add, handleAddTag.
  destruct (Str.isEmpty (normalize raw)) eqn:Em.
  { apply isEmpty_true in Em. contradiction. }
  assert (G : negb (allowDuplicates cfg) && Str.includes c (normalize raw)
              = false).
  { destruct D as [D | D]; [now rewrite D|].
    apply includes_false in D. rewrite D. apply andb_false_r. }
  rewrite G.
  destruct (Z.geb_spec (Z.of_nat (List.length c)) (maxTags cfg));
    [lia | reflexivity].
Qed.

(** Every run of [add] falls in one of the four cases above. *)
Lemma add_cases (c : list string) (raw : string) :
  (add c raw cfg = c)
  \/ (normalize raw <> ""
      /\ (allowDuplicates cfg = true \/ ~ In (normalize raw) c)
      /\ Z.of_nat (List.length c) < maxTags cfg
      /\ add c raw cfg = c ++ [normalize raw]).
Proof.
  destruct (Str.isEmpty (normalize raw)) eqn:Em.
  { left. apply add_empty. now apply isEmpty_true. }
  assert (Ne : normalize raw <> "").
  { intros E. apply isEmpty_true in E. congruence. }
  destruct (Z_lt_le_dec (Z.of_nat (List.length c)) (maxTags cfg)) as [L | L];
    [| left; now apply add_full].
  destruct (allowDuplicates cfg) eqn:D.
  { right. repeat split; auto. apply add_appends; auto. }
  destruct (Str.includes c (normalize raw)) eqn:I.
  { left. apply add_duplicate; [exact D | now apply includes_In]. }
  apply includes_false in I.
  right. repeat split; auto. apply add_appends; auto.
Qed.

Lemma remove_absent (c : list string) (t : string) :
  ~ In t c -> remove c t = c.
Proof.
  unfold remove, handleRemoveTag. induction c as [|x r IH]; simpl; intros H.
  - reflexivity.
  - destruct (String.eqb_spec x t) as [-> | Ne]; simpl.
    + exfalso. apply H. now left.
    + f_equal. apply IH. intros K. apply H. now right.
Qed.

Lemma remove_appended (c : list string) (t : string) :
  remove (c ++ [t]) t = remove c t.
Proof.
  unfold remove, handleRemoveTag.
  rewrite filter_app. simpl. rewrite String.eqb_refl. simpl.
  apply app_nil_r.
Qed.

Lemma remove_incl (c : list string) (t x : string) :
  In x (remove c t) -> In x c.
Proof. unfold remove, handleRemoveTag. intros H. now apply filter_In in H. Qed.

Lemma remove_length (c : list string) (t : string) :
  (List.length (remove c t) <= List.length c)%nat.
Proof. apply filter_length_le. Qed.

Lemma remove_NoDup_map (f : string -> string) (c : list string) (t : string) :
  NoDup (map f c) -> NoDup (map f (remove c t)).
Proof.
  unfold remove, handleRemoveTag.
  induction c as [|x r IH]; simpl; intros H; [constructor|].
  inversion H as [|? ? Hx Hr]; subst.
  destruct (negb (String.eqb x t)); simpl; [| now apply IH].
  constructor; [| now apply IH].
  intros K. apply Hx. apply in_map_iff in K as (y & Ey & Iy).
  apply in_map_iff. exists y. split; [exact Ey|].
  now apply filter_In in Iy.
Qed.

(** On a collection without repeated entries, removing the value of the
    last entry takes away exactly the last entry. *)
Lemma removeLast_NoDup (c : list string) :
  NoDup c -> removeLast cfg c = removelast c.
Proof.
  destruct c as [|y c']; [reflexivity|].
  destruct (@exists_last _ (y :: c')) as (r & x & E); [discriminate|].
  rewrite E. clear E y c'. intros N.
  - unfold removeLast, handleTagKeyDown, commit, lastTag. simpl Str.isEmpty.
    rewrite length_app. simpl List.length.
    replace (0 <? Z.of_nat (List.length r + 1)) with true
      by (symmetry; apply Z.ltb_lt; lia).
    simpl emitted.
    replace (List.length r + 1 - 1)%nat with (List.length r) by lia.
    rewrite nth_middle. fold (remove (r ++ [x]) x).
    rewrite remove_appended, removelast_last.
    apply remove_absent.
    apply NoDup_remove_2 in N. rewrite app_nil_r in N. exact N.
Qed.

End EditorFacts.

Section InvariantFacts.

Import Editor.

Variable cfg : Config.

Lemma map_normalize_tags (c : list string) :
  Forall isTag c -> map normalize c = c.
Proof.
  intros H. rewrite <- (map_id c) at 2. now apply map_ext_Forall.
Qed.

Lemma TagCollection_add (c : list string) (raw : string) :
  TagCollection cfg c -> TagCollection cfg (add c raw cfg).
Proof.
  intros (T & L & N).
  destruct (add_cases cfg c raw) as [-> | (Ne & D & Lt & ->)].
  { now repeat split. }
  assert (T' : Forall isTag (c ++ [normalize raw])).
  { apply Forall_app. split; [exact T|].
    constructor; [apply normalize_idem | constructor]. }
  repeat split.
  - exact T'.
  - rewrite length_app. simpl. lia.
  - intros A. rewrite (map_normalize_tags _ T').
    destruct D as [D | D]; [congruence|].
    apply NoDup_app.
    + rewrite <- (map_normalize_tags c T). now apply N.
    + constructor; [exact (fun f => f) | constructor].
    + intros a Ia [<- | []]. contradiction.
Qed.

Lemma TagCollection_remove (c : list string) (t : string) :
  TagCollection cfg c -> TagCollection cfg (remove c t).
Proof.
  intros (T & L & N). repeat split.
  - rewrite Forall_forall in *. intros x Hx. apply T.
    now apply remove_incl in Hx.
  - pose proof (remove_length c t). lia.
  - intros A. now apply remove_NoDup_map, N.
Qed.

Lemma removeLast_cases (c : list string) :
  removeLast cfg c = c \/ removeLast cfg c = remove c (lastTag c).
Proof.
  unfold removeLast, handleTagKeyDown, commit.
  destruct (Str.isEmpty "" && (0 <? Z.of_nat (List.length c)));
    [right | left]; reflexivity.
Qed.

Lemma TagCollection_removeLast (c : list string) :
  TagCollection cfg c -> TagCollection cfg (removeLast cfg c).
Proof.
  intros H. destruct (removeLast_cases c) as [-> | ->];
    [exact H | now apply TagCollection_remove].
Qed.

End InvariantFacts.

(* ===================================================================== *)
(** ** The renderer *)
(* ===================================================================== *)

Section RendererFacts.

Import Renderer.

(** Without a cap the code and the specification's wording agree. *)
Lemma no_cap_agrees (tags : list string) :
  displayTags tags None = spec_visible tags None
  /\ remainingCount tags None = spec_overflow tags None.
Proof. split; reflexivity. Qed.

(** With a positive cap they agree as well. *)
Lemma positive_cap_agrees (tags : list string) (n : Z) :
  0 < n ->
  displayTags tags (Some n) = spec_visible tags (Some n)
  /\ remainingCount tags (Some n) = spec_overflow tags (Some n).
Proof.
  intros P. unfold displayTags, remainingCount, spec_visible, spec_overflow,
    slice0.
  destruct (Z.eqb_spec n 0); [lia|].
  destruct (Z.ltb_spec n 0); [lia|].
  split; reflexivity.
Qed.

(** A cap of zero is read as no cap at all. *)
Lemma zero_cap_is_no_cap (tags : list string) (click : bool) (v : Variant) :
  TagsDisplay tags (Some 0) click v = TagsDisplay tags None click v.
Proof. reflexivity. Qed.

End RendererFacts.

(* ===================================================================== *)
(** ** The task list *)
(* ===================================================================== *)

Section StoreFacts.

Import Store.

Lemma toggle_lookup (id0 : string) (tasks : list TaskItem) (i : nat) :
  nth_error (handleToggleTask id0 tasks) i
  = option_map (fun task => if String.eqb (id task) id0
                            then flipCompleted task else task)
               (nth_error tasks i).
Proof. apply nth_error_map. Qed.

End StoreFacts.

(* ===================================================================== *)
(** ** Properties of the specification *)
(* ===================================================================== *)

(** C1 (the code departs from it at a zero cap).  The specification asks, for
    a cap of 0, for no visible tag and an overflow equal to the number of
    tags.  [maxDisplay ? ... : ...] takes the number 0 for an absent cap:
    on three tags with [maxDisplay = 0] the component shows all three and
    reports no overflow, where the specification's wording gives the empty
    list and an overflow of 3. *)
Theorem zero_cap_shows_every_tag :
  Renderer.displayTags ["a"; "b"; "c"] (Some 0) = ["a"; "b"; "c"]
  /\ Renderer.remainingCount ["a"; "b"; "c"] (Some 0) = 0
  /\ Renderer.spec_visible ["a"; "b"; "c"] (Some 0) = []
  /\ Renderer.spec_overflow ["a"; "b"; "c"] (Some 0) = 3
  /\ Renderer.TagsDisplay ["a"; "b"; "c"] (Some 0) false Renderer.Default
     = Some (Renderer.mkRendered Renderer.Default ["a"; "b"; "c"] false None).
Proof. repeat split. Qed.

(** C2 (the code departs from it when the last entry has an equal earlier
    entry).  Backspace on an empty input removes by value,
    [handleRemoveTag(tags[tags.length - 1])]: every entry equal to the last
    one goes.  The collection [["x"; "x"]], which [add] builds when
    duplicates are allowed, is emptied, and [["x"; "y"; "x"]] loses both
    ["x"], where removing exactly the final entry leaves [["x"]] and
    [["x"; "y"]]. *)
Theorem removeLast_takes_equal_entries (cfg : Editor.Config) :
  Editor.add ["x"] "x" (Editor.mkConfig 10 true) = ["x"; "x"]
  /\ Editor.removeLast cfg ["x"; "x"] = []
  /\ removelast ["x"; "x"] = ["x"]
  /\ Editor.removeLast cfg ["x"; "y"; "x"] = ["y"]
  /\ removelast ["x"; "y"; "x"] = ["x"; "y"].
Proof. repeat split. Qed.

(** C3, as stated, fails: with duplicates allowed and ["newtag"] already in
    the collection, [add] appends a second copy and [remove] then takes both
    away. *)
Lemma round_trip_fails_on_duplicates :
  Editor.add ["newtag"] "newtag" (Editor.mkConfig 10 true) <> ["newtag"]
  /\ Editor.remove (Editor.add ["newtag"] "newtag" (Editor.mkConfig 10 true))
                   "newtag"
     <> ["newtag"].
Proof. split; vm_compute; discriminate. Qed.

(** C3, amended.  For every collection [c] and configuration [cfg]: when
    [add c "newtag" cfg] appended (the result differs from [c]) and
    ["newtag"] was not in [c] before, which is always so when
    [allowDuplicates] is false, then [remove] of ["newtag"] from the result
    gives back [c]. *)
Theorem round_trip_newtag (c : list string) (cfg : Editor.Config) :
  Editor.add c "newtag" cfg <> c ->
  Editor.allowDuplicates cfg = false \/ ~ In "newtag" c ->
  Editor.remove (Editor.add c "newtag" cfg) "newtag" = c.
Proof.
  intros Changed Fresh.
  assert (Absent : ~ In "newtag" c).
  { destruct Fresh as [D | F]; [| exact F].
    intros I. apply Changed. now apply add_duplicate. }
  destruct (add_cases cfg c "newtag") as [E | (_ & _ & _ & E)];
    [contradiction|].
  rewrite E. change (Editor.normalize "newtag") with "newtag".
  rewrite remove_appended. now apply remove_absent.
Qed.

Lemma round_trip_newtag_witness :
  Editor.remove (Editor.add ["home"; "work"] "newtag" Editor.defaultConfig)
                "newtag"
  = ["home"; "work"].
Proof.
  apply (round_trip_newtag ["home"; "work"] Editor.defaultConfig).
  - vm_compute. discriminate.
  - left. reflexivity.
Defined.

(** C4.  For every collection [c], every limit and every raw tag [t] whose
    normal form is an entry of [c], [add] with [allowDuplicates = false]
    leaves [c] as it is, and the handler does not call [onTagsChange]. *)
Theorem add_present_tag_unchanged (c : list string) (t : string) (limit : Z) :
  In (Editor.normalize t) c ->
  Editor.add c t (Editor.mkConfig limit false) = c
  /\ Editor.emitted (Editor.handleAddTag (Editor.mkConfig limit false) c t)
     = None.
Proof.
  intros H. split; [now apply add_duplicate|].
  unfold Editor.handleAddTag.
  destruct (Str.isEmpty (Editor.normalize t)); [reflexivity|].
  apply includes_In in H. simpl. now rewrite H.
Qed.

Lemma add_present_tag_unchanged_witness :
  Editor.add ["home"; "work"] "  WoRk " (Editor.mkConfig 10 false)
  = ["home"; "work"]
  /\ Editor.emitted (Editor.handleAddTag (Editor.mkConfig 10 false)
                                         ["home"; "work"] "  WoRk ")
     = None.
Proof.
  apply (add_present_tag_unchanged ["home"; "work"] "  WoRk " 10).
  vm_compute. right. left. reflexivity.
Defined.

(** C5.  For every collection [c], raw input and configuration: when the
    normal form of the input (trimmed, then lower-cased) is not empty, is not
    a duplicate to reject and [c] is under the limit, [add] returns [c] with
    the normal form appended at the end; when the normal form is empty, [add]
    returns [c]. *)
Theorem add_appends_normal_form
    (c : list string) (raw : string) (cfg : Editor.Config) :
  (Editor.normalize raw <> "" ->
   Editor.allowDuplicates cfg = true \/ ~ In (Editor.normalize raw) c ->
   Z.of_nat (List.length c) < Editor.maxTags cfg ->
   Editor.add c raw cfg = c ++ [Editor.normalize raw])
  /\ (Editor.normalize raw = "" -> Editor.add c raw cfg = c).
Proof.
  split.
  - apply add_appends.
  - apply add_empty.
Qed.

Lemma add_appends_normal_form_witness :
  Editor.add ["a"; "b"] " C " Editor.defaultConfig = ["a"; "b"; "c"]
  /\ Editor.add ["a"; "b"] "   " Editor.defaultConfig = ["a"; "b"].
Proof.
  split.
  - apply (proj1 (add_appends_normal_form
                    ["a"; "b"] " C " Editor.defaultConfig)).
    + vm_compute. discriminate.
    + right. vm_compute. intros [H | [H | []]]; discriminate H.
    + vm_compute. reflexivity.
  - apply (proj2 (add_appends_normal_form
                    ["a"; "b"] "   " Editor.defaultConfig)).
    reflexivity.
Defined.

(** C6.  For every collection [c] with at least [maxTags] entries and every
    raw input, [add] returns [c], and the handler does not call
    [onTagsChange]. *)
Theorem add_at_limit_unchanged
    (c : list string) (raw : string) (cfg : Editor.Config) :
  Editor.maxTags cfg <= Z.of_nat (List.length c) ->
  Editor.add c raw cfg = c
  /\ Editor.emitted (Editor.handleAddTag cfg c raw) = None.
Proof.
  intros L. split; [now apply add_full|].
  unfold Editor.handleAddTag.
  destruct (Str.isEmpty (Editor.normalize raw)); [reflexivity|].
  destruct (negb (Editor.allowDuplicates cfg)
            && Str.includes c (Editor.normalize raw)); [reflexivity|].
  destruct (Z.geb_spec (Z.of_nat (List.length c)) (Editor.maxTags cfg));
    [reflexivity | lia].
Qed.

Lemma add_at_limit_unchanged_witness :
  Editor.add ["a"; "b"; "c"] "d" (Editor.mkConfig 3 false) = ["a"; "b"; "c"]
  /\ Editor.emitted (Editor.handleAddTag (Editor.mkConfig 3 false)
                                         ["a"; "b"; "c"] "d")
     = None.
Proof.
  apply (add_at_limit_unchanged ["a"; "b"; "c"] "d" (Editor.mkConfig 3 false)).
  simpl. lia.
Defined.

(** C7.  Whatever the cap, the click handler and the variant, the empty
    collection renders to the source's [null], and a collection with at least
    one tag never does: it always yields a container, also when none of its
    tags is shown. *)
Theorem empty_renders_nothing :
  (forall (maxDisplay : option Z) (click : bool) (v : Renderer.Variant),
      Renderer.TagsDisplay [] maxDisplay click v = None)
  /\ (forall (t : string) (ts : list string) (maxDisplay : option Z)
             (click : bool) (v : Renderer.Variant),
        exists r, Renderer.TagsDisplay (t :: ts) maxDisplay click v = Some r)
  /\ (exists r, Renderer.TagsDisplay ["a"] (Some (-1)) false Renderer.Default
                = Some r
                /\ Renderer.buttons r = []).
Proof.
  split; [reflexivity|]. split.
  - intros. eexists. reflexivity.
  - eexists. split; reflexivity.
Qed.

(** C8.  Each editor operation keeps the Tag Collection invariant.  From a
    collection of tags (entries in normal form) that has at most [maxTags]
    entries and, unless [allowDuplicates] is set, no two entries with the
    same normal form, [add], [remove] and [removeLast] return a collection
    with the same three properties. *)
Theorem editor_keeps_invariant (cfg : Editor.Config) (c : list string) :
  Editor.TagCollection cfg c ->
  (forall raw, Editor.TagCollection cfg (Editor.add c raw cfg))
  /\ (forall t, Editor.TagCollection cfg (Editor.remove c t))
  /\ Editor.TagCollection cfg (Editor.removeLast cfg c).
Proof.
  intros H. split; [| split].
  - intros raw. now apply TagCollection_add.
  - intros t. now apply TagCollection_remove.
  - now apply TagCollection_removeLast.
Qed.

Lemma editor_keeps_invariant_witness :
  Editor.TagCollection (Editor.mkConfig 3 false)
    (Editor.add ["home"; "work"] " Urgent" (Editor.mkConfig 3 false))
  /\ Editor.TagCollection (Editor.mkConfig 3 false)
       (Editor.remove ["home"; "work"] "home")
  /\ Editor.TagCollection (Editor.mkConfig 3 false)
       (Editor.removeLast (Editor.mkConfig 3 false) ["home"; "work"]).
Proof.
  assert (H : Editor.TagCollection (Editor.mkConfig 3 false) ["home"; "work"]).
  { split; [| split].
    - repeat constructor.
    - simpl. lia.
    - intros _. simpl. repeat constructor; simpl; intuition discriminate. }
  destruct (editor_keeps_invariant (Editor.mkConfig 3 false) ["home"; "work"] H)
    as (A & R & L).
  exact (conj (A " Urgent") (conj (R "home") L)).
Defined.

(** C9.  For every task list and id, [handleToggleTask] keeps the number and
    order of the tasks; a task with another id is returned as it is, and a
    task with the given id comes back with its completion flag negated and
    its id, title, description, priority, tags, creation and due timestamps
    (and legacy text) as they were. *)
Theorem toggle_flips_completed_only
    (id0 : string) (tasks : list Store.TaskItem) :
  List.length (Store.handleToggleTask id0 tasks) = List.length tasks
  /\ forall (i : nat) (t : Store.TaskItem),
       nth_error tasks i = Some t ->
       exists t',
         nth_error (Store.handleToggleTask id0 tasks) i = Some t'
         /\ (Store.id t <> id0 -> t' = t)
         /\ (Store.id t = id0 ->
             Store.completed t' = negb (Store.completed t)
             /\ Store.id t' = Store.id t
             /\ Store.title t' = Store.title t
             /\ Store.description t' = Store.description t
             /\ Store.priority t' = Store.priority t
             /\ Store.tags t' = Store.tags t
             /\ Store.createdAt t' = Store.createdAt t
             /\ Store.dueDate t' = Store.dueDate t
             /\ Store.text t' = Store.text t).
Proof.
  split; [apply length_map|].
  intros i t H. rewrite toggle_lookup, H. simpl.
  eexists. split; [reflexivity|].
  destruct (String.eqb_spec (Store.id t) id0) as [E | N]; split; intros K;
    try contradiction; try reflexivity.
  repeat split.
Qed.

Lemma toggle_flips_completed_only_witness :
  exists t',
    nth_error
      (Store.handleToggleTask "2"
         [Store.mkTask "1" "write" None Store.medium ["work"] false 1000
                       None (Some "write");
          Store.mkTask "2" "read" (Some "ch. 3") Store.high [] true 2000
                       (Some 9000) None]) 1
    = Some t'
    /\ Store.completed t' = false
    /\ Store.title t' = "read".
Proof.
  destruct (proj2 (toggle_flips_completed_only "2"
                     [Store.mkTask "1" "write" None Store.medium ["work"]
                                   false 1000 None (Some "write");
                      Store.mkTask "2" "read" (Some "ch. 3") Store.high []
                                   true 2000 (Some 9000) None])
                  1%nat _ eq_refl)
    as (t' & L & _ & F).
  exists t'. destruct (F eq_refl) as (C & _ & T & _).
  split; [exact L|]. split; [exact C | exact T].
Defined.

(** C10.  For every collection, raw input and configuration, [add] returns
    either the collection it was given or that collection followed by one
    new entry; the entries already there keep their values and places. *)
Theorem add_unchanged_or_appended
    (c : list string) (raw : string) (cfg : Editor.Config) :
  Editor.add c raw cfg = c
  \/ exists x, Editor.add c raw cfg = c ++ [x].
Proof.
  destruct (add_cases cfg c raw) as [E | (_ & _ & _ & E)].
  - now left.
  - right. now exists (Editor.normalize raw).
Qed.

(* ===================================================================== *)
(** ** Further properties of the editor *)
(* ===================================================================== *)

Section EditorHandlers.

Import Editor.

Lemma remove_In (c : list string) (t x : string) :
  In x (remove c t) <-> In x c /\ x <> t.
Proof.
  unfold remove, handleRemoveTag. rewrite filter_In.
  destruct (String.eqb_spec x t); simpl; intuition congruence.
Qed.

Lemma isEmpty_normalize (s : string) :
  Str.isEmpty (normalize s) = Str.isEmpty (Str.trim s).
Proof. apply isEmpty_toLowerCase. Qed.

Lemma handleAddTag_emitted (cfg : Config) (c : list string) (raw : string)
                           (l : list string) :
  emitted (handleAddTag cfg c raw) = Some l ->
  l = c ++ [normalize raw]
  /\ normalize raw <> ""
  /\ (allowDuplicates cfg = true \/ ~ In (normalize raw) c)
  /\ Z.of_nat (List.length c) < maxTags cfg
  /\ nextInput (handleAddTag cfg c raw) = "".
Proof.
  unfold handleAddTag.
  destruct (Str.isEmpty (normalize raw)) eqn:Em; [discriminate|].
  destruct (allowDuplicates cfg) eqn:D; simpl.
  - destruct (Z.geb_spec (Z.of_nat (List.length c)) (maxTags cfg)); simpl;
      [discriminate|].
    intros [= <-]. repeat split; auto.
    intros E. apply isEmpty_true in E. congruence.
  - destruct (Str.includes c (normalize raw)) eqn:I; simpl; [discriminate|].
    destruct (Z.geb_spec (Z.of_nat (List.length c)) (maxTags cfg)); simpl;
      [discriminate|].
    intros [= <-]. apply includes_false in I. repeat split; auto.
    intros E. apply isEmpty_true in E. congruence.
Qed.

End EditorHandlers.

(** X1.  [handleRemoveTag] takes away every entry equal to the tag and no
    other: an entry is in the result exactly when it was in the collection
    and differs from the tag.  The entries kept stay in their order (removal
    distributes over concatenation), removing twice is removing once, and
    removing a tag that is not there changes nothing. *)
Theorem remove_all_and_only (c : list string) (t : string) :
  (forall x, In x (Editor.remove c t) <-> In x c /\ x <> t)
  /\ (forall c', Editor.remove (c ++ c') t
                 = Editor.remove c t ++ Editor.remove c' t)
  /\ Editor.remove (Editor.remove c t) t = Editor.remove c t
  /\ (~ In t c -> Editor.remove c t = c).
Proof.
  split; [intros x; apply remove_In|].
  split; [intros c'; apply filter_app|].
  split.
  - apply remove_absent. intros H. apply remove_In in H. now destruct H.
  - apply remove_absent.
Qed.

Lemma remove_all_and_only_witness :
  Editor.remove ["home"; "work"] "urgent" = ["home"; "work"].
Proof.
  apply (proj2 (proj2 (proj2 (remove_all_and_only ["home"; "work"] "urgent")))).
  simpl. intros [H | [H | []]]; discriminate H.
Defined.

(** X2.  When [handleAddTag] calls [onTagsChange], the payload is the
    collection followed by the normal form of the input, that normal form is
    not empty, the collection was under the limit, the normal form was not
    in it unless duplicates are allowed, and the input is cleared. *)
Theorem add_emits_only_valid_appends
    (cfg : Editor.Config) (c : list string) (raw : string) (l : list string) :
  Editor.emitted (Editor.handleAddTag cfg c raw) = Some l ->
  l = c ++ [Editor.normalize raw]
  /\ Editor.normalize raw <> ""
  /\ (Editor.allowDuplicates cfg = true \/ ~ In (Editor.normalize raw) c)
  /\ Z.of_nat (List.length c) < Editor.maxTags cfg
  /\ Editor.nextInput (Editor.handleAddTag cfg c raw) = "".
Proof. apply handleAddTag_emitted. Qed.

Lemma add_emits_only_valid_appends_witness :
  ["a"; "b"] = ["a"] ++ [Editor.normalize " B"]
  /\ Editor.normalize " B" <> ""
  /\ (Editor.allowDuplicates Editor.defaultConfig = true
      \/ ~ In (Editor.normalize " B") ["a"])
  /\ Z.of_nat (List.length ["a"]) < Editor.maxTags Editor.defaultConfig
  /\ Editor.nextInput (Editor.handleAddTag Editor.defaultConfig ["a"] " B")
     = "".
Proof.
  apply (add_emits_only_valid_appends Editor.defaultConfig ["a"] " B").
  reflexivity.
Defined.

(** X3.  The two silent rejections treat the typed text differently: a
    duplicate clears the input, a full collection leaves it as typed.  In
    both cases [onTagsChange] is not called. *)
Theorem rejection_clears_input_only_on_duplicate
    (cfg : Editor.Config) (c : list string) (raw : string) :
  Editor.normalize raw <> "" ->
  (Editor.allowDuplicates cfg = false -> In (Editor.normalize raw) c ->
   Editor.handleAddTag cfg c raw = Editor.mkOutcome None "")
  /\ (Editor.allowDuplicates cfg = true \/ ~ In (Editor.normalize raw) c ->
      Editor.maxTags cfg <= Z.of_nat (List.length c) ->
      Editor.handleAddTag cfg c raw = Editor.mkOutcome None raw).
Proof.
  intros Ne. unfold Editor.handleAddTag.
  destruct (Str.isEmpty (Editor.normalize raw)) eqn:Em.
  { apply isEmpty_true in Em. contradiction. }
  split.
  - intros D I. apply includes_In in I. now rewrite D, I.
  - intros D L.
    assert (G : negb (Editor.allowDuplicates cfg)
                && Str.includes c (Editor.normalize raw) = false).
    { destruct D as [D | D]; [now rewrite D|].
      apply includes_false in D. rewrite D. apply andb_false_r. }
    rewrite G.
    destruct (Z.geb_spec (Z.of_nat (List.length c)) (Editor.maxTags cfg));
      [reflexivity | lia].
Qed.

Lemma rejection_clears_input_only_on_duplicate_witness :
  Editor.handleAddTag (Editor.mkConfig 2 false) ["a"; "b"] "B "
  = Editor.mkOutcome None ""
  /\ Editor.handleAddTag (Editor.mkConfig 2 false) ["a"; "b"] "C "
     = Editor.mkOutcome None "C ".
Proof.
  split.
  - apply (proj1 (rejection_clears_input_only_on_duplicate
                    (Editor.mkConfig 2 false) ["a"; "b"] "B "
                    ltac:(vm_compute; discriminate))).
    + reflexivity.
    + vm_compute. right. left. reflexivity.
  - apply (proj2 (rejection_clears_input_only_on_duplicate
                    (Editor.mkConfig 2 false) ["a"; "b"] "C "
                    ltac:(vm_compute; discriminate))).
    + right. vm_compute. intros [H | [H | []]]; discriminate H.
    + simpl. lia.
Defined.

(** X4.  With duplicates not allowed, adding is idempotent up to spelling:
    after an [add] of one input, an [add] of any input with the same normal
    form changes nothing. *)
Theorem add_twice_is_add_once
    (cfg : Editor.Config) (c : list string) (raw raw' : string) :
  Editor.allowDuplicates cfg = false ->
  Editor.normalize raw' = Editor.normalize raw ->
  Editor.add (Editor.add c raw cfg) raw' cfg = Editor.add c raw cfg.
Proof.
  intros D E.
  destruct (Str.isEmpty (Editor.normalize raw')) eqn:Em.
  { apply add_empty. now apply isEmpty_true. }
  assert (Ne : Editor.normalize raw <> "").
  { intros Z0. rewrite <- E in Z0. apply isEmpty_true in Z0. congruence. }
  destruct (Z_lt_le_dec (Z.of_nat (List.length c)) (Editor.maxTags cfg))
    as [L | L].
  2: { rewrite (add_full cfg c raw L). now apply add_full. }
  destruct (Str.includes c (Editor.normalize raw)) eqn:I.
  - apply includes_In in I. rewrite (add_duplicate cfg c raw D I).
    apply add_duplicate; [exact D | now rewrite E].
  - apply includes_false in I.
    rewrite (add_appends cfg c raw Ne (or_intror I) L).
    apply add_duplicate; [exact D|].
    rewrite E. apply in_or_app. right. now left.
Qed.

Lemma add_twice_is_add_once_witness :
  Editor.add (Editor.add ["home"] "Work" Editor.defaultConfig) " work "
             Editor.defaultConfig
  = Editor.add ["home"] "Work" Editor.defaultConfig.
Proof.
  apply (add_twice_is_add_once Editor.defaultConfig ["home"] "Work" " work ");
    reflexivity.
Defined.

Section EditorSessions.

Import Editor.

Variable cfg : Config.

Lemma lastTag_last (r : list string) (x : string) : lastTag (r ++ [x]) = x.
Proof.
  unfold lastTag. rewrite length_app. simpl.
  replace (List.length r + 1 - 1)%nat with (List.length r) by lia.
  apply nth_middle.
Qed.

Lemma keydown_cases (c : list string) (input : string) (key : Key) :
  commit c (handleTagKeyDown cfg c input key) = c
  \/ commit c (handleTagKeyDown cfg c input key) = add c input cfg
  \/ commit c (handleTagKeyDown cfg c input key) = remove c (lastTag c).
Proof.
  destruct key; simpl.
  - right. left. reflexivity.
  - destruct (Str.isEmpty input && (0 <? Z.of_nat (List.length c)));
      [right; right | left]; reflexivity.
  - left. reflexivity.
Qed.

Lemma add_keeps_nonempty (c : list string) (raw : string) :
  ~ In "" c -> ~ In "" (add c raw cfg).
Proof.
  intros H. destruct (add_cases cfg c raw) as [-> | (Ne & _ & _ & ->)];
    [exact H|].
  intros K. apply in_app_or in K as [K | [K | []]]; [now apply H|].
  now apply Ne.
Qed.

Lemma remove_keeps_nonempty (c : list string) (t : string) :
  ~ In "" c -> ~ In "" (remove c t).
Proof. intros H K. apply H. now apply remove_incl in K. Qed.

(** The property every action of a session keeps. *)
Lemma step_keeps_collection (s : EditorView.Session) (a : EditorView.Action) :
  TagCollection cfg (EditorView.tags s) /\ ~ In "" (EditorView.tags s) ->
  TagCollection cfg (EditorView.tags (EditorView.step cfg s a))
  /\ ~ In "" (EditorView.tags (EditorView.step cfg s a)).
Proof.
  intros [T N]. destruct a as [value | key | | tag]; simpl.
  - now split.
  - destruct (keydown_cases (EditorView.tags s) (EditorView.tagInput s) key)
      as [-> | [-> | ->]].
    + now split.
    + split; [now apply TagCollection_add | now apply add_keeps_nonempty].
    + split; [now apply TagCollection_remove
             | now apply remove_keeps_nonempty].
  - split; [now apply TagCollection_add | now apply add_keeps_nonempty].
  - split; [now apply (TagCollection_remove cfg)
           | now apply remove_keeps_nonempty].
Qed.

Lemma run_keeps_collection
    (actions : list EditorView.Action) (s : EditorView.Session) :
  TagCollection cfg (EditorView.tags s) /\ ~ In "" (EditorView.tags s) ->
  TagCollection cfg (EditorView.tags (EditorView.run cfg s actions))
  /\ ~ In "" (EditorView.tags (EditorView.run cfg s actions)).
Proof.
  revert s. induction actions as [|a r IH]; intros s H; simpl; [exact H|].
  apply IH. now apply step_keeps_collection.
Qed.

End EditorSessions.

(** X5.  Backspace removes tags only from an empty input and a non-empty
    collection.  With text in the input, or with no tag, the handler does
    nothing; otherwise, for a collection that ends in [x], the payload of
    [onTagsChange] is the rest of the collection without any entry equal to
    [x], and the input stays empty. *)
Theorem backspace_needs_empty_input
    (cfg : Editor.Config) (c : list string) (input : string) :
  (input <> "" \/ c = [] ->
   Editor.handleTagKeyDown cfg c input Editor.Backspace
   = Editor.mkOutcome None input)
  /\ (forall r x, input = "" -> c = r ++ [x] ->
      Editor.handleTagKeyDown cfg c input Editor.Backspace
      = Editor.mkOutcome (Some (Editor.remove r x)) "").
Proof.
  split.
  - intros [Ne | ->]; simpl.
    + destruct input; [contradiction | reflexivity].
    + now rewrite andb_false_r.
  - intros r x -> ->. simpl.
    rewrite length_app. simpl List.length.
    replace (0 <? Z.of_nat (List.length r + 1)) with true
      by (symmetry; apply Z.ltb_lt; lia).
    rewrite lastTag_last. fold (Editor.remove (r ++ [x]) x).
    now rewrite remove_appended.
Qed.

Lemma backspace_needs_empty_input_witness :
  Editor.handleTagKeyDown Editor.defaultConfig ["a"; "b"] "b" Editor.Backspace
  = Editor.mkOutcome None "b"
  /\ Editor.handleTagKeyDown Editor.defaultConfig ["a"; "b"] ""
                             Editor.Backspace
     = Editor.mkOutcome (Some (Editor.remove ["a"] "b")) "".
Proof.
  split.
  - apply (proj1 (backspace_needs_empty_input
                    Editor.defaultConfig ["a"; "b"] "b")).
    left. discriminate.
  - apply (proj2 (backspace_needs_empty_input
                    Editor.defaultConfig ["a"; "b"] "") ["a"] "b");
      reflexivity.
Defined.

(** X6.  Whatever the user does in the editor (typing, any key, Add, the
    cross of any pill), in any order and number, a collection of tags that
    satisfies the invariant and has no empty entry is turned into one that
    satisfies the invariant and has no empty entry. *)
Theorem session_keeps_collection
    (cfg : Editor.Config) (s : EditorView.Session)
    (actions : list EditorView.Action) :
  Editor.TagCollection cfg (EditorView.tags s) ->
  ~ In "" (EditorView.tags s) ->
  Editor.TagCollection cfg (EditorView.tags (EditorView.run cfg s actions))
  /\ ~ In "" (EditorView.tags (EditorView.run cfg s actions)).
Proof. intros T N. now apply run_keeps_collection. Qed.

Lemma session_keeps_collection_witness :
  Editor.TagCollection Editor.defaultConfig
    (EditorView.tags
       (EditorView.run Editor.defaultConfig (EditorView.mkSession [] "")
          [EditorView.SetInput " Work"; EditorView.KeyDown Editor.Enter;
           EditorView.SetInput "work"; EditorView.ClickAdd;
           EditorView.KeyDown Editor.Backspace]))
  /\ ~ In ""
       (EditorView.tags
          (EditorView.run Editor.defaultConfig (EditorView.mkSession [] "")
             [EditorView.SetInput " Work"; EditorView.KeyDown Editor.Enter;
              EditorView.SetInput "work"; EditorView.ClickAdd;
              EditorView.KeyDown Editor.Backspace])).
Proof.
  apply (session_keeps_collection Editor.defaultConfig
           (EditorView.mkSession [] "")).
  - split; [constructor | split; [simpl; lia | intros _; constructor]].
  - simpl. tauto.
Defined.

(** X7.  The markup agrees with the handler.  Exactly one of the input row
    and the limit message is rendered; while the input row is not rendered
    [handleAddTag] would not change the collection for any input; and when
    the Add button can be clicked (row rendered, button enabled), a click
    always clears the input: it either appends the normal form or drops a
    duplicate. *)
Theorem view_matches_add_handler
    (cfg : Editor.Config) (disabled : bool) (c : list string)
    (input : string) :
  EditorView.inputShown (EditorView.render cfg disabled c input)
  = negb (EditorView.limitMessage (EditorView.render cfg disabled c input))
  /\ (EditorView.inputShown (EditorView.render cfg disabled c input) = false ->
      forall raw, Editor.emitted (Editor.handleAddTag cfg c raw) = None)
  /\ (EditorView.inputShown (EditorView.render cfg disabled c input) = true ->
      EditorView.addDisabled (EditorView.render cfg disabled c input) = false ->
      Editor.handleAddTag cfg c input
      = Editor.mkOutcome (Some (c ++ [Editor.normalize input])) ""
      \/ Editor.handleAddTag cfg c input = Editor.mkOutcome None "").
Proof.
  simpl. split; [| split].
  - destruct (Z.ltb_spec (Z.of_nat (List.length c)) (Editor.maxTags cfg)),
      (Z.geb_spec (Z.of_nat (List.length c)) (Editor.maxTags cfg));
      simpl; try reflexivity; lia.
  - intros H raw. apply Z.ltb_ge in H.
    destruct (Editor.emitted (Editor.handleAddTag cfg c raw)) eqn:E;
      [| reflexivity].
    apply handleAddTag_emitted in E. lia.
  - intros S A. apply Z.ltb_lt in S. apply orb_false_elim in A as [A _].
    unfold Editor.handleAddTag. rewrite isEmpty_normalize, A.
    destruct (negb (Editor.allowDuplicates cfg)
              && Str.includes c (Editor.normalize input)); [now right|].
    destruct (Z.geb_spec (Z.of_nat (List.length c)) (Editor.maxTags cfg));
      [lia | now left].
Qed.

Lemma view_matches_add_handler_witness :
  (forall raw,
      Editor.emitted (Editor.handleAddTag (Editor.mkConfig 2 false)
                                          ["a"; "b"] raw) = None)
  /\ (Editor.handleAddTag (Editor.mkConfig 2 false) ["a"] " B"
      = Editor.mkOutcome (Some (["a"] ++ [Editor.normalize " B"])) ""
      \/ Editor.handleAddTag (Editor.mkConfig 2 false) ["a"] " B"
         = Editor.mkOutcome None "").
Proof.
  split.
  - apply (proj1 (proj2 (view_matches_add_handler
                           (Editor.mkConfig 2 false) false ["a"; "b"] ""))).
    reflexivity.
  - apply (proj2 (proj2 (view_matches_add_handler
                           (Editor.mkConfig 2 false) false ["a"] " B")));
      reflexivity.
Defined.

(** X8.  For any list of strings, [add] lengthens it by at most one entry
    and never past the larger of its length and [maxTags]: a collection
    within the limit stays within it, and one already over it does not
    grow. *)
Theorem add_length_bounded
    (c : list string) (raw : string) (cfg : Editor.Config) :
  (List.length c <= List.length (Editor.add c raw cfg) <= List.length c + 1)%nat
  /\ Z.of_nat (List.length (Editor.add c raw cfg))
     <= Z.max (Z.of_nat (List.length c)) (Editor.maxTags cfg).
Proof.
  destruct (add_cases cfg c raw) as [-> | (_ & _ & L & ->)].
  - split; lia.
  - rewrite length_app. simpl. split; lia.
Qed.

(* ===================================================================== *)
(** ** Further properties of the renderer *)
(* ===================================================================== *)

Section RendererCaps.

Import Renderer.

Lemma slice0_length (tags : list string) (n : Z) :
  0 <= n ->
  Z.of_nat (List.length (slice0 tags n)) = Z.min n (Z.of_nat (List.length tags)).
Proof.
  intros P. unfold slice0.
  destruct (Z.ltb_spec n 0); [lia|].
  rewrite length_firstn. lia.
Qed.

Lemma displayTags_positive (tags : list string) (n : Z) :
  0 < n -> displayTags tags (Some n) = firstn (Z.to_nat n) tags.
Proof.
  intros P. unfold displayTags, slice0.
  destruct (Z.eqb_spec n 0); [lia|].
  destruct (Z.ltb_spec n 0); [lia|].
  destruct (Z.le_ge_cases n (Z.of_nat (List.length tags))).
  - now rewrite Z.min_l.
  - rewrite Z.min_r by assumption. rewrite Nat2Z.id.
    rewrite !firstn_all2; [reflexivity | lia | lia].
Qed.

End RendererCaps.

(** X9.  Whatever the cap (absent, zero, positive or negative), the tags
    shown are an initial segment of the tags given: the renderer never
    reorders, repeats or invents a tag. *)
Theorem shown_is_prefix (tags : list string) (maxDisplay : option Z) :
  exists rest, tags = Renderer.displayTags tags maxDisplay ++ rest.
Proof.
  destruct maxDisplay as [n|]; simpl.
  - destruct (n =? 0).
    + exists []. now rewrite app_nil_r.
    + unfold Renderer.slice0. eexists. symmetry. apply firstn_skipn.
  - exists []. now rewrite app_nil_r.
Qed.

(** X10.  For an absent cap and for every cap that is not negative, the
    number of tags shown and the number reported as hidden add up to the
    number of tags; for a positive cap no more tags are shown than the cap
    allows. *)
Theorem shown_plus_hidden_is_all (tags : list string) (maxDisplay : option Z) :
  (forall n, maxDisplay = Some n -> 0 <= n) ->
  Z.of_nat (List.length (Renderer.displayTags tags maxDisplay))
  + Renderer.remainingCount tags maxDisplay
  = Z.of_nat (List.length tags)
  /\ (forall n, maxDisplay = Some n -> 0 < n ->
      Z.of_nat (List.length (Renderer.displayTags tags maxDisplay)) <= n).
Proof.
  intros H. destruct maxDisplay as [n|]; simpl.
  - specialize (H n eq_refl). destruct (Z.eqb_spec n 0) as [-> | Ne].
    + split; [lia|]. intros m [= <-]. lia.
    + rewrite slice0_length by exact H. split; [lia|].
      intros m [= <-] _. lia.
  - split; [lia|]. intros n [=].
Qed.

Lemma shown_plus_hidden_is_all_witness :
  Z.of_nat (List.length (Renderer.displayTags ["a"; "b"; "c"] (Some 2)))
  + Renderer.remainingCount ["a"; "b"; "c"] (Some 2)
  = Z.of_nat (List.length ["a"; "b"; "c"])
  /\ Z.of_nat (List.length (Renderer.displayTags ["a"; "b"; "c"] (Some 2)))
     <= 2.
Proof.
  destruct (shown_plus_hidden_is_all ["a"; "b"; "c"] (Some 2)) as [S B].
  - intros n [= <-]. lia.
  - split; [exact S | apply (B 2 eq_refl); lia].
Defined.

(** X11.  With a positive cap [n] and at least one tag, the component
    renders the first [n] tags (all of them when there are fewer) and shows
    the indicator exactly when there are more than [n] tags, with the number
    of tags beyond the first [n]. *)
Theorem positive_cap_rendering
    (t : string) (ts : list string) (n : Z) (click : bool)
    (v : Renderer.Variant) :
  0 < n ->
  Renderer.TagsDisplay (t :: ts) (Some n) click v
  = Some {| Renderer.variant := v;
            Renderer.buttons := firstn (Z.to_nat n) (t :: ts);
            Renderer.interactive := click;
            Renderer.more :=
              if n <? Z.of_nat (List.length (t :: ts))
              then Some (Z.of_nat (List.length (t :: ts)) - n)
              else None |}.
Proof.
  intros P. unfold Renderer.TagsDisplay.
  change (List.length (t :: ts) =? 0)%nat with false. cbv iota.
  rewrite displayTags_positive by exact P.
  unfold Renderer.remainingCount.
  destruct (Z.eqb_spec n 0); [lia|].
  do 2 f_equal.
  destruct (Z.ltb_spec n (Z.of_nat (List.length (t :: ts))));
    destruct (Z.ltb_spec 0 (Z.max 0 (Z.of_nat (List.length (t :: ts)) - n)));
    try lia; try reflexivity.
  f_equal. lia.
Qed.

Lemma positive_cap_rendering_witness :
  Renderer.TagsDisplay ["react"; "typescript"; "tailwind"; "hooks"] (Some 2)
                       false Renderer.Compact
  = Some (Renderer.mkRendered Renderer.Compact ["react"; "typescript"] false
                              (Some 2)).
Proof.
  apply (positive_cap_rendering "react" ["typescript"; "tailwind"; "hooks"] 2
                                false Renderer.Compact).
  lia.
Defined.

(** X12.  A negative cap [n] is passed on to [slice] and to the
    subtraction: the last [-n] tags are dropped from the display, and the
    number reported as hidden is the number of tags plus [-n], more than
    there are tags. *)
Theorem negative_cap_rendering (tags : list string) (n : Z) :
  n < 0 ->
  Renderer.displayTags tags (Some n)
  = firstn (List.length tags - Z.to_nat (- n)) tags
  /\ Renderer.remainingCount tags (Some n)
     = Z.of_nat (List.length tags) + (- n).
Proof.
  intros N. unfold Renderer.displayTags, Renderer.remainingCount,
    Renderer.slice0.
  destruct (Z.eqb_spec n 0); [lia|].
  destruct (Z.ltb_spec n 0); [| lia].
  split; [f_equal|]; lia.
Qed.

Lemma negative_cap_rendering_witness :
  Renderer.displayTags ["a"; "b"; "c"] (Some (-1))
  = firstn (List.length ["a"; "b"; "c"] - Z.to_nat (- (-1))) ["a"; "b"; "c"]
  /\ Renderer.remainingCount ["a"; "b"; "c"] (Some (-1))
     = Z.of_nat (List.length ["a"; "b"; "c"]) + (- (-1)).
Proof. apply (negative_cap_rendering ["a"; "b"; "c"] (-1)). lia. Defined.

(* ===================================================================== *)
(** ** Further properties of the task list *)
(* ===================================================================== *)

Section TaskListFacts.

Import Store HomePage.

Lemma flipCompleted_twice (task : TaskItem) :
  flipCompleted (flipCompleted task) = task.
Proof. destruct task; unfold flipCompleted; simpl. now rewrite negb_involutive. Qed.

Lemma toggle_absent (id0 : string) (ts : list TaskItem) :
  ~ In id0 (map id ts) -> handleToggleTask id0 ts = ts.
Proof.
  unfold handleToggleTask. induction ts as [|x r IH]; simpl; intros H;
    [reflexivity|].
  destruct (String.eqb_spec (id x) id0) as [E | _].
  - exfalso. apply H. now left.
  - f_equal. apply IH. intros K. apply H. now right.
Qed.

Lemma delete_In (id0 : string) (ts : list TaskItem) (t : TaskItem) :
  In t (handleDeleteTask id0 ts) <-> In t ts /\ id t <> id0.
Proof.
  unfold handleDeleteTask. rewrite filter_In.
  destruct (String.eqb_spec (id t) id0); simpl; intuition congruence.
Qed.

Lemma delete_absent (id0 : string) (ts : list TaskItem) :
  ~ In id0 (map id ts) -> handleDeleteTask id0 ts = ts.
Proof.
  unfold handleDeleteTask. induction ts as [|x r IH]; simpl; intros H;
    [reflexivity|].
  destruct (String.eqb_spec (id x) id0) as [E | _]; simpl.
  - exfalso. apply H. now left.
  - f_equal. apply IH. intros K. apply H. now right.
Qed.

Lemma delete_removes_id (id0 : string) (ts : list TaskItem) :
  ~ In id0 (map id (handleDeleteTask id0 ts)).
Proof.
  intros K. apply in_map_iff in K as (t & E & I).
  apply delete_In in I. now destruct I.
Qed.

Lemma save_absent (u : TaskItem) (ts : list TaskItem) :
  ~ In (id u) (map id ts) -> handleSaveTask u ts = ts.
Proof.
  unfold handleSaveTask. induction ts as [|x r IH]; simpl; intros H;
    [reflexivity|].
  destruct (String.eqb_spec (id x) (id u)) as [E | _].
  - exfalso. apply H. now left.
  - f_equal. apply IH. intros K. apply H. now right.
Qed.

Lemma save_ids (u : TaskItem) (ts : list TaskItem) :
  map id (handleSaveTask u ts) = map id ts.
Proof.
  unfold handleSaveTask. rewrite map_map. apply map_ext. intros t.
  destruct (String.eqb_spec (id t) (id u)) as [E | _]; [| reflexivity].
  simpl. now symmetry.
Qed.

Lemma save_In (u t : TaskItem) (ts : list TaskItem) :
  In t (handleSaveTask u ts) ->
  (t = withTitleAsText u /\ In (id u) (map id ts))
  \/ (In t ts /\ id t <> id u).
Proof.
  unfold handleSaveTask. intros H. apply in_map_iff in H as (x & E & I).
  destruct (String.eqb_spec (id x) (id u)) as [K | K].
  - left. split; [now symmetry|]. apply in_map_iff. now exists x.
  - right. subst t. now split.
Qed.

Lemma toggle_In (id0 : string) (t : TaskItem) (ts : list TaskItem) :
  In t (handleToggleTask id0 ts) ->
  In t ts \/ exists x, In x ts /\ t = flipCompleted x.
Proof.
  unfold handleToggleTask. intros H. apply in_map_iff in H as (x & E & I).
  destruct (String.eqb (id x) id0); subst t; [right; now exists x | now left].
Qed.

End TaskListFacts.

(** X13.  Toggling the same id twice gives back the list it started from. *)
Theorem toggle_twice_is_identity (id0 : string) (tasks : list Store.TaskItem) :
  Store.handleToggleTask id0 (Store.handleToggleTask id0 tasks) = tasks.
Proof.
  unfold Store.handleToggleTask. rewrite map_map.
  rewrite <- (map_id tasks) at 2. apply map_ext. intros t.
  destruct (String.eqb (Store.id t) id0) eqn:E.
  - change (Store.id (Store.flipCompleted t)) with (Store.id t).
    rewrite E. apply flipCompleted_twice.
  - now rewrite E.
Qed.

(** X14.  [handleDeleteTask] removes every task with the id and no other: a
    task is in the result exactly when it was in the list and has another
    id.  The tasks kept stay in their order, no task of the result carries
    the id, deleting twice is deleting once, and deleting an id that no task
    has changes nothing. *)
Theorem delete_all_and_only (id0 : string) (tasks : list Store.TaskItem) :
  (forall t, In t (HomePage.handleDeleteTask id0 tasks)
             <-> In t tasks /\ Store.id t <> id0)
  /\ (forall more, HomePage.handleDeleteTask id0 (tasks ++ more)
                   = HomePage.handleDeleteTask id0 tasks
                     ++ HomePage.handleDeleteTask id0 more)
  /\ ~ In id0 (map Store.id (HomePage.handleDeleteTask id0 tasks))
  /\ HomePage.handleDeleteTask id0 (HomePage.handleDeleteTask id0 tasks)
     = HomePage.handleDeleteTask id0 tasks
  /\ (~ In id0 (map Store.id tasks) ->
      HomePage.handleDeleteTask id0 tasks = tasks).
Proof.
  split; [intros t; apply delete_In|].
  split; [intros more; apply filter_app|].
  split; [apply delete_removes_id|].
  split; [apply delete_absent, delete_removes_id | apply delete_absent].
Qed.

Lemma delete_all_and_only_witness :
  HomePage.handleDeleteTask "7"
    [Store.mkTask "1" "write" None Store.medium [] false 1000 None
                  (Some "write")]
  = [Store.mkTask "1" "write" None Store.medium [] false 1000 None
                  (Some "write")].
Proof.
  apply (proj2 (proj2 (proj2 (proj2 (delete_all_and_only "7"
           [Store.mkTask "1" "write" None Store.medium [] false 1000 None
                         (Some "write")]))))).
  simpl. intros [H | []]. discriminate H.
Defined.

(** X15.  Deleting an id makes a toggle of that id irrelevant, before or
    after: toggle then delete is delete, and delete then toggle is
    delete. *)
Theorem delete_absorbs_toggle (id0 : string) (tasks : list Store.TaskItem) :
  HomePage.handleDeleteTask id0 (Store.handleToggleTask id0 tasks)
  = HomePage.handleDeleteTask id0 tasks
  /\ Store.handleToggleTask id0 (HomePage.handleDeleteTask id0 tasks)
     = HomePage.handleDeleteTask id0 tasks.
Proof.
  split; [| apply toggle_absent, delete_removes_id].
  unfold HomePage.handleDeleteTask, Store.handleToggleTask.
  induction tasks as [|x r IH]; simpl; [reflexivity|].
  destruct (String.eqb (Store.id x) id0) eqn:E; simpl.
  - rewrite E. simpl. exact IH.
  - rewrite E. simpl. now rewrite IH.
Qed.

(** X16.  [handleSaveTask] keeps the ids of the list, in order (so also the
    number of tasks); every task of the result with the saved id is the
    saved task with its title copied into the legacy [text], and every other
    task of the result is a task of the list; saving twice is saving once;
    saving a task whose id no task has changes nothing. *)
Theorem save_replaces_by_id (u : Store.TaskItem) (tasks : list Store.TaskItem) :
  map Store.id (HomePage.handleSaveTask u tasks) = map Store.id tasks
  /\ (forall t, In t (HomePage.handleSaveTask u tasks) ->
                if String.eqb (Store.id t) (Store.id u)
                then t = HomePage.withTitleAsText u
                else In t tasks)
  /\ HomePage.handleSaveTask u (HomePage.handleSaveTask u tasks)
     = HomePage.handleSaveTask u tasks
  /\ (~ In (Store.id u) (map Store.id tasks) ->
      HomePage.handleSaveTask u tasks = tasks).
Proof.
  split; [apply save_ids|]. split; [| split; [| apply save_absent]].
  - intros t H. apply save_In in H as [[-> _] | [I N]].
    + simpl. now rewrite String.eqb_refl.
    + apply String.eqb_neq in N. now rewrite N.
  - unfold HomePage.handleSaveTask. rewrite map_map. apply map_ext.
    intros t. destruct (String.eqb (Store.id t) (Store.id u)) eqn:E.
    + simpl. now rewrite String.eqb_refl.
    + now rewrite E.
Qed.

Lemma save_replaces_by_id_witness :
  HomePage.handleSaveTask
    (Store.mkTask "9" "read" None Store.low ["home"] false 5 None None)
    [Store.mkTask "1" "write" None Store.medium [] false 1000 None
                  (Some "write")]
  = [Store.mkTask "1" "write" None Store.medium [] false 1000 None
                  (Some "write")].
Proof.
  apply (proj2 (proj2 (proj2 (save_replaces_by_id
           (Store.mkTask "9" "read" None Store.low ["home"] false 5 None None)
           [Store.mkTask "1" "write" None Store.medium [] false 1000 None
                         (Some "write")])))).
  simpl. intros [H | []]. discriminate H.
Defined.

Section TaskCounts.

Import Store HomePage.

Lemma completedCount_cons (x : TaskItem) (r : list TaskItem) :
  completedCount (x :: r)
  = ((if completed x then 1 else 0) + completedCount r)%nat.
Proof. unfold completedCount. simpl. now destruct (completed x). Qed.

Lemma timestampId_inj (a b : Z) : timestampId a = timestampId b -> a = b.
Proof.
  unfold timestampId. intros E.
  assert (N : forall z, Z.to_int z <> Decimal.Pos Decimal.Nil
                        /\ Z.to_int z <> Decimal.Neg Decimal.Nil).
  { intros [|p|p]; simpl; split; try discriminate;
      intros [= K]; now apply Unsigned.to_uint_nonnil in K. }
  apply DecimalZ.to_int_inj.
  assert (S : Some (Z.to_int a) = Some (Z.to_int b)).
  { rewrite <- (NilZero.isi (Z.to_int a)) by apply N.
    rewrite <- (NilZero.isi (Z.to_int b)) by apply N.
    now rewrite E. }
  now injection S.
Qed.

End TaskCounts.

(** X17.  In a list whose ids are all different, toggling the id of a task
    moves the number of completed tasks by exactly one: up when the task was
    open, down when it was completed. *)
Theorem toggle_moves_completed_count
    (id0 : string) (tasks : list Store.TaskItem) (t : Store.TaskItem) :
  NoDup (map Store.id tasks) -> In t tasks -> Store.id t = id0 ->
  (HomePage.completedCount (Store.handleToggleTask id0 tasks)
   + (if Store.completed t then 1 else 0)
   = HomePage.completedCount tasks
     + (if Store.completed t then 0 else 1))%nat.
Proof.
  intros U I E. induction tasks as [|x r IH]; [contradiction|].
  simpl in U. inversion U as [|? ? Hx Hr]; subst.
  change (Store.handleToggleTask (Store.id t) (x :: r))
    with ((if String.eqb (Store.id x) (Store.id t)
           then Store.flipCompleted x else x)
          :: Store.handleToggleTask (Store.id t) r).
  rewrite !completedCount_cons.
  destruct I as [-> | I].
  - rewrite String.eqb_refl, (toggle_absent _ _ Hx). simpl.
    destruct (Store.completed t); simpl; lia.
  - assert (Ne : Store.id x <> Store.id t).
    { intros K. apply Hx. rewrite K. now apply in_map. }
    apply String.eqb_neq in Ne. rewrite Ne.
    specialize (IH Hr I). lia.
Qed.

Lemma toggle_moves_completed_count_witness :
  (HomePage.completedCount
     (Store.handleToggleTask "2"
        [Store.mkTask "1" "write" None Store.medium [] true 1000 None None;
         Store.mkTask "2" "read" None Store.high [] false 2000 None None])
   + 0
   = HomePage.completedCount
       [Store.mkTask "1" "write" None Store.medium [] true 1000 None None;
        Store.mkTask "2" "read" None Store.high [] false 2000 None None]
     + 1)%nat.
Proof.
  apply (toggle_moves_completed_count "2"
           [Store.mkTask "1" "write" None Store.medium [] true 1000 None None;
            Store.mkTask "2" "read" None Store.high [] false 2000 None None]
           (Store.mkTask "2" "read" None Store.high [] false 2000 None None)).
  - simpl. repeat constructor; simpl; intuition discriminate.
  - right. left. reflexivity.
  - reflexivity.
Defined.

(** X18.  The id given to a new task is the decimal text of the clock
    reading, so two readings give the same id only when they are equal; a
    task added at a reading no task of the list was added at gets an id that
    no task of the list has, provided the list's ids are such texts. *)
Theorem new_task_id_is_fresh
    (now created : Z) (taskInput : string) (readings : list Z)
    (tasks : list Store.TaskItem) :
  map Store.id tasks = map HomePage.timestampId readings ->
  NoDup readings -> ~ In now readings ->
  NoDup (map Store.id (HomePage.handleAddTask now created taskInput tasks)).
Proof.
  intros Ids U F. simpl. rewrite Ids. constructor.
  - intros K. apply in_map_iff in K as (z & E & I).
    apply timestampId_inj in E. now subst.
  - clear F Ids. induction U as [|z r Hz _ IH]; simpl; constructor; auto.
    intros K. apply in_map_iff in K as (y & E & I).
    apply timestampId_inj in E. now subst.
Qed.

Lemma new_task_id_is_fresh_witness :
  NoDup (map Store.id
           (HomePage.handleAddTask 1700000000300 1700000000301 "read"
              [Store.mkTask "1700000000000" "write" None Store.medium []
                            false 1700000000001 None (Some "write")])).
Proof.
  apply (new_task_id_is_fresh 1700000000300 1700000000301 "read"
           [1700000000000]).
  - reflexivity.
  - repeat constructor. simpl. tauto.
  - simpl. intros [H | []]. discriminate H.
Defined.

(* ===================================================================== *)
(** ** The modal and the quick-add input *)
(* ===================================================================== *)

Section FormFacts.

Import Modal.

Lemma isEmpty_false (s : string) : Str.isEmpty s = false <-> s <> "".
Proof. destruct s; simpl; split; congruence. Qed.

Lemma trimmedOrUndefined_fixed (s : string) :
  trimmedOrUndefined (descriptionOrEmpty (trimmedOrUndefined s))
  = trimmedOrUndefined s.
Proof.
  unfold trimmedOrUndefined.
  destruct (Str.isEmpty (Str.trim s)) eqn:E; simpl; [reflexivity|].
  now rewrite trim_idem, E.
Qed.

Lemma handleSave_some (task u : Store.TaskItem) (f : Form) :
  handleSave task f = Some u ->
  Str.trim (title f) <> ""
  /\ u = {| Store.id := Store.id task;
            Store.title := Str.trim (title f);
            Store.description := trimmedOrUndefined (description f);
            Store.priority := priority f;
            Store.tags := tags f;
            Store.completed := Store.completed task;
            Store.createdAt := Store.createdAt task;
            Store.dueDate := Store.dueDate task;
            Store.text := Store.text task |}.
Proof.
  unfold handleSave. destruct (Str.isEmpty (Str.trim (title f))) eqn:E;
    [discriminate|].
  intros [= <-]. split; [now apply isEmpty_false | reflexivity].
Qed.

End FormFacts.



(** X20.  A task that came out of a save is a fixed point of the modal:
    opening the modal on it and saving without touching the form hands back
    the very same task. *)
Theorem save_unedited_is_identity
    (task u : Store.TaskItem) (f : Modal.Form) :
  Modal.handleSave task f = Some u ->
  Modal.handleSave u (Modal.resetForm u) = Some u.
Proof.
  intros H. apply handleSave_some in H as [Ne ->].
  unfold Modal.handleSave, Modal.resetForm. simpl.
  rewrite trim_idem.
  apply isEmpty_false in Ne. rewrite Ne.
  now rewrite trimmedOrUndefined_fixed.
Qed.

Lemma save_unedited_is_identity_witness :
  Modal.handleSave
    (Store.mkTask "1" "Write report" (Some "by Friday") Store.high ["work"]
                  false 1000 None None)
    (Modal.resetForm
       (Store.mkTask "1" "Write report" (Some "by Friday") Store.high ["work"]
                     false 1000 None None))
  = Some (Store.mkTask "1" "Write report" (Some "by Friday") Store.high
                       ["work"] false 1000 None None).
Proof.
  apply (save_unedited_is_identity
           (Store.mkTask "1" "draft" None Store.medium [] false 1000 None None)
           (Store.mkTask "1" "Write report" (Some "by Friday") Store.high
                         ["work"] false 1000 None None)
           (Modal.mkForm " Write report" "by Friday  " Store.high ["work"])).
  reflexivity.
Defined.

(** X21.  [QuickAddTask] calls [onSubmit] exactly when the input is not
    blank and the component is neither loading nor disabled, and passes the
    input as typed (not trimmed).  A rejected submit leaves input and
    loading flag as they were; an accepted one ends with the loading flag
    off and the input cleared if [onSubmit] returned, kept if it threw. *)
Theorem quick_add_submit
    (disabled onSubmitOk : bool) (input : string) (isLoading : bool) :
  (forall x,
      QuickAdd.submitted
        (QuickAdd.handleSubmit disabled onSubmitOk input isLoading) = Some x
      <-> x = input /\ Str.trim input <> "" /\ isLoading = false
          /\ disabled = false)
  /\ (QuickAdd.submitted
        (QuickAdd.handleSubmit disabled onSubmitOk input isLoading) = None ->
      QuickAdd.handleSubmit disabled onSubmitOk input isLoading
      = QuickAdd.mkSubmission None input isLoading)
  /\ (QuickAdd.submitted
        (QuickAdd.handleSubmit disabled onSubmitOk input isLoading) <> None ->
      QuickAdd.handleSubmit disabled onSubmitOk input isLoading
      = QuickAdd.mkSubmission (Some input)
                              (if onSubmitOk then "" else input) false).
Proof.
  unfold QuickAdd.handleSubmit.
  destruct (Str.isEmpty (Str.trim input)) eqn:E, isLoading, disabled; simpl;
    (split; [intros x; split;
             [intros [= <-] || discriminate
             | intros (-> & Ne & L & D); try discriminate]
            | split; [intros H | intros H]]);
    try reflexivity; try discriminate; try congruence.
  - apply isEmpty_true in E. contradiction.
  - repeat split. now apply isEmpty_false.
Qed.

Lemma quick_add_submit_witness :
  QuickAdd.handleSubmit false true "  " false
  = QuickAdd.mkSubmission None "  " false
  /\ QuickAdd.handleSubmit false false " buy milk" false
     = QuickAdd.mkSubmission (Some " buy milk") " buy milk" false.
Proof.
  split.
  - apply (proj1 (proj2 (quick_add_submit false true "  " false))).
    reflexivity.
  - apply (proj2 (proj2 (quick_add_submit false false " buy milk" false))).
    discriminate.
Defined.

(* ===================================================================== *)
(** ** The page as a whole *)
(* ===================================================================== *)

Section PageFacts.

Import Store HomePage.

Lemma wellFormed_flip (t : TaskItem) :
  wellFormed t -> wellFormed (flipCompleted t).
Proof. exact (fun H => H). Qed.

Lemma wellFormed_new (now created : Z) (taskInput : string) :
  Str.trim taskInput <> "" ->
  Forall wellFormed (handleAddTask now created taskInput []).
Proof.
  intros Ne. constructor; [| constructor].
  split; [exact Ne|]. split; [reflexivity|]. split; [| exact (fun f => f)].
  split; [constructor | split; [simpl; lia | intros _; constructor]].
Qed.

Lemma wellFormed_saved (task u : TaskItem) (title description : string)
                       (priority : TaskPriority)
                       (actions : list EditorView.Action) :
  wellFormed task ->
  Modal.handleSave task
    (Modal.mkForm title description priority
       (EditorView.tags
          (EditorView.run modalTagConfig
             (EditorView.mkSession (tags task) "") actions)))
  = Some u ->
  wellFormed (withTitleAsText u).
Proof.
  intros (_ & _ & T & N) H. apply handleSave_some in H as [Ne ->].
  simpl in Ne.
  destruct (run_keeps_collection modalTagConfig actions
              (EditorView.mkSession (tags task) "") (conj T N)) as [T' N'].
  repeat split; simpl; try apply T'; auto.
  now rewrite trim_idem.
Qed.

Lemma step_keeps_wellFormed (s : State) (e : Event) :
  allWellFormed s -> allWellFormed (step s e).
Proof.
  intros [L S]. assert (Keep : allWellFormed s) by now split.
  destruct e as [input now created | id0 | id0 | index |
                 | title description priority actions | confirmed]; simpl.
  - unfold QuickAdd.handleSubmit. rewrite !orb_false_r.
    destruct (Str.isEmpty (Str.trim input)) eqn:E; simpl; [now split|].
    split; [| exact S]. simpl. constructor; [| exact L].
    apply isEmpty_false in E.
    pose proof (wellFormed_new now created input E) as W.
    now inversion W.
  - split; [| exact S]. simpl. rewrite Forall_forall in *.
    intros t H. apply toggle_In in H as [H | (x & H & ->)].
    + now apply L.
    + apply wellFormed_flip. now apply L.
  - split; [| exact S]. simpl. rewrite Forall_forall in *.
    intros t H. apply delete_In in H. now apply L.
  - destruct (nth_error (tasks s) index) as [task|] eqn:E; [| now split].
    split; [exact L|]. simpl. intros t [= <-].
    rewrite Forall_forall in L. apply L. now apply nth_error_In in E.
  - split; [exact L | discriminate].
  - destruct (selectedTask s) as [task|] eqn:Sel; [| exact Keep].
    destruct (isModalOpen s); [| exact Keep].
    destruct (Modal.handleSave _ _) as [u|] eqn:H; [| exact Keep].
    split; [| discriminate]. simpl. rewrite Forall_forall in *.
    intros t I. apply save_In in I as [[-> _] | [I _]]; [| now apply L].
    eapply wellFormed_saved; [| exact H]. now apply S.
  - destruct (selectedTask s) as [task|] eqn:Sel; [| exact Keep].
    destruct (isModalOpen s); [| exact Keep].
    destruct confirmed; simpl; [| exact Keep].
    split; [| discriminate]. simpl. rewrite Forall_forall in *.
    intros t H. apply delete_In in H. now apply L.
Qed.

Lemma run_keeps_wellFormed (events : list Event) (s : State) :
  allWellFormed s -> allWellFormed (run s events).
Proof.
  revert s. induction events as [|e r IH]; intros s H; simpl; [exact H|].
  apply IH. now apply step_keeps_wellFormed.
Qed.

Lemma step_keeps_modalConsistent (s : State) (e : Event) :
  modalConsistent s -> modalConsistent (step s e).
Proof.
  intros C.
  assert (K : forall l, modalConsistent (mkState l None false))
    by (intros l; split; simpl; [discriminate | congruence]).
  assert (O : forall l t, modalConsistent (mkState l (Some t) true))
    by (intros l t; split; simpl; [discriminate | reflexivity]).
  assert (F : forall l, modalConsistent (mkState l (selectedTask s)
                                                 (isModalOpen s)))
    by (intros l; exact C).
  destruct e as [input now created | id0 | id0 | index |
                 | title description priority actions | confirmed]; simpl.
  - destruct (QuickAdd.submitted _); [apply F | exact C].
  - apply F.
  - apply F.
  - destruct (nth_error (tasks s) index); [apply O | exact C].
  - apply K.
  - destruct (selectedTask s) eqn:Sel; [| exact C].
    destruct (isModalOpen s) eqn:Op; [| exact C].
    destruct (Modal.handleSave _ _); [apply K | exact C].
  - destruct (selectedTask s) eqn:Sel; [| exact C].
    destruct (isModalOpen s) eqn:Op; [| exact C].
    destruct confirmed; simpl; [apply K | exact C].
Qed.

End PageFacts.

(** X22.  Whatever the user does on the page, starting from the empty list,
    every task in the list and the task selected for the modal are well
    formed: the title is not blank, the legacy [text] equals the title, and
    the tags form a Tag Collection for the modal's editor (at most 10
    entries in normal form, no two alike) with no empty entry. *)
Theorem page_keeps_tasks_well_formed (events : list HomePage.Event) :
  HomePage.allWellFormed (HomePage.run HomePage.initial events).
Proof.
  apply run_keeps_wellFormed. split; [constructor | discriminate].
Qed.

(** X23.  Whatever the user does on the page, the modal is open exactly
    when a task is selected. *)
Theorem page_modal_open_iff_selected (events : list HomePage.Event) :
  HomePage.modalConsistent (HomePage.run HomePage.initial events).
Proof.
  assert (G : forall ev s, HomePage.modalConsistent s ->
                           HomePage.modalConsistent (HomePage.run s ev)).
  { induction ev as [|e r IH]; intros s H; simpl; [exact H|].
    apply IH. now apply step_keeps_modalConsistent. }
  apply G. split; simpl; [discriminate | congruence].
Qed.

(** X24.  Only a submit adds a task and only the two deletes remove tasks:
    a submit leaves the list as it is or puts one task in front of it; a
    toggle and a save keep the ids of the list, in order; opening and
    closing the modal keep the list itself; and a delete, from the list or
    from the modal, leaves no more tasks than there were. *)
Theorem page_events_frame (s : HomePage.State) :
  (forall input now created,
      HomePage.tasks (HomePage.step s (HomePage.Submit input now created))
      = HomePage.tasks s
      \/ exists t,
           HomePage.tasks (HomePage.step s (HomePage.Submit input now created))
           = t :: HomePage.tasks s)
  /\ (forall id0,
         map Store.id (HomePage.tasks (HomePage.step s (HomePage.Toggle id0)))
         = map Store.id (HomePage.tasks s))
  /\ (forall title description priority actions,
         map Store.id
           (HomePage.tasks
              (HomePage.step s
                 (HomePage.Save title description priority actions)))
         = map Store.id (HomePage.tasks s))
  /\ (forall index,
         HomePage.tasks (HomePage.step s (HomePage.Open index))
         = HomePage.tasks s)
  /\ HomePage.tasks (HomePage.step s HomePage.Close) = HomePage.tasks s
  /\ (forall id0,
         (List.length (HomePage.tasks (HomePage.step s (HomePage.Delete id0)))
          <= List.length (HomePage.tasks s))%nat)
  /\ (forall confirmed,
         (List.length
            (HomePage.tasks (HomePage.step s (HomePage.DeleteInModal confirmed)))
          <= List.length (HomePage.tasks s))%nat).
Proof.
  repeat split; intros; simpl.
  - destruct (QuickAdd.submitted _); [right; eexists; reflexivity | now left].
  - unfold Store.handleToggleTask. rewrite map_map. apply map_ext.
    intros t. now destruct (String.eqb (Store.id t) id0).
  - destruct (HomePage.selectedTask s); [| reflexivity].
    destruct (HomePage.isModalOpen s); [| reflexivity].
    destruct (Modal.handleSave _ _); [| reflexivity].
    simpl. apply save_ids.
  - now destruct (nth_error (HomePage.tasks s) index).
  - apply filter_length_le.
  - destruct (HomePage.selectedTask s); [| lia].
    destruct (HomePage.isModalOpen s); [| lia].
    destruct confirmed; simpl; [apply filter_length_le | lia].
Qed.

(** X25.  Saving from the modal with a blank title changes nothing on the
    page: no task is touched and the modal stays open on the same task. *)
Theorem page_blank_title_not_saved
    (s : HomePage.State) (title description : string)
    (priority : Store.TaskPriority) (actions : list EditorView.Action) :
  Str.trim title = "" ->
  HomePage.step s (HomePage.Save title description priority actions) = s.
Proof.
  intros E. simpl.
  destruct (HomePage.selectedTask s); [| reflexivity].
  destruct (HomePage.isModalOpen s); [| reflexivity].
  unfold Modal.handleSave. simpl. now rewrite E.
Qed.

Lemma page_blank_title_not_saved_witness :
  HomePage.step
    (HomePage.run HomePage.initial
       [HomePage.Submit "buy milk" 1700000000000 1700000000001;
        HomePage.Open 0])
    (HomePage.Save "  " "2 litres" Store.high
                   [EditorView.SetInput "shop"; EditorView.ClickAdd])
  = HomePage.run HomePage.initial
      [HomePage.Submit "buy milk" 1700000000000 1700000000001;
       HomePage.Open 0].
Proof.
  apply (page_blank_title_not_saved
           (HomePage.run HomePage.initial
              [HomePage.Submit "buy milk" 1700000000000 1700000000001;
               HomePage.Open 0])
           "  " "2 litres" Store.high
           [EditorView.SetInput "shop"; EditorView.ClickAdd]).
  reflexivity.
Defined.
